(** * textual_textarea: the buffer, the cursor and the cell/segment lookup

    A shallow embedding of [textual_textarea/_buffer.py] and of the cursor
    and lookup code of [textual_textarea/_textarea.py], with the properties
    of the text-editing core stated and proved over it.

    Python integers are [Z]; a Python [str] is a list of characters, the
    characters taken from [ascii] (the code compares characters with
    those of [os.linesep] and looks at them in no other way); a Python
    list is a [list], indexed the way Python indexes it (negative indices
    count from the end, an index outside the list raises [IndexError],
    slice bounds and [list.insert] positions are clamped). *)

From Stdlib Require Import ZArith Ascii String Lia.
From stdpp Require Import base list strings.

Open Scope Z_scope.

(** ** Exceptions *)

Inductive exn : Type :=
| IndexError
| ValueError
| AssertionError.

Inductive result (A : Type) : Type :=
| Ok (a : A)
| Raise (e : exn).
Arguments Ok {A} a.
Arguments Raise {A} e.

(** Sequencing: an exception raised by the first statement propagates.
    With these instances [x ← r; k] is stdpp's notation for it. *)
#[global] Instance result_ret : MRet result := fun A a => Ok a.
#[global] Instance result_bind : MBind result := fun A B k r =>
  match r with
  | Ok a => k a
  | Raise e => Raise e
  end.

(** ** Python sequences *)

(** A [str]: a sequence of characters. *)
Abbreviation str := (list ascii) (only parsing).

Definition lit (s : string) : str := list_ascii_of_string s.

Module py.

Definition len {A : Type} (l : list A) : Z := Z.of_nat (length l).

(** [l[i]] and [del l[i]] accept [-len(l) <= i < len(l)]. *)
Definition norm_index (n : Z) (i : Z) : option nat :=
  let j := if i <? 0 then i + n else i in
  if (0 <=? j) && (j <? n) then Some (Z.to_nat j) else None.

(** Slice bounds and [list.insert] positions are clamped into
    [0 .. len(l)]. *)
Definition clamp_index (n : Z) (i : Z) : nat :=
  Z.to_nat (if i <? 0 then Z.max 0 (i + n) else Z.min i n).

(** [l[i]] *)
Definition getitem {A : Type} (l : list A) (i : Z) : result A :=
  match norm_index (len l) i with
  | Some k =>
      match l !! k with
      | Some a => Ok a
      | None => Raise IndexError
      end
  | None => Raise IndexError
  end.

(** [l[i] = v], used for the in-place mutation of the element [l[i]] *)
Definition setitem {A : Type} (l : list A) (i : Z) (v : A) : result (list A) :=
  match norm_index (len l) i with
  | Some k => Ok (<[k:=v]> l)
  | None => Raise IndexError
  end.

(** [del l[i]] *)
Definition delitem {A : Type} (l : list A) (i : Z) : result (list A) :=
  match norm_index (len l) i with
  | Some k => Ok (take k l ++ drop (S k) l)
  | None => Raise IndexError
  end.

(** [l[i:]] *)
Definition slice_from {A : Type} (l : list A) (i : Z) : list A :=
  drop (clamp_index (len l) i) l.

(** [del l[i:]] *)
Definition del_slice_from {A : Type} (l : list A) (i : Z) : list A :=
  take (clamp_index (len l) i) l.

(** [l.insert(i, v)], for a position [i] that fits an index of the
    machine ([fits_index] below); with a position beyond that
    [list.insert] raises [OverflowError] where this gives a list. *)
Definition insert {A : Type} (l : list A) (i : Z) (v : A) : list A :=
  let k := clamp_index (len l) i in
  take k l ++ v :: drop k l.

(** [sep.join(parts)] *)
Fixpoint join (sep : str) (parts : list str) : str :=
  match parts with
  | [] => []
  | [p] => p
  | p :: rest => p ++ sep ++ join sep rest
  end.

(** [max(xs)], which raises [ValueError] on an empty sequence *)
Definition max (xs : list Z) : result Z :=
  match xs with
  | [] => Raise ValueError
  | x :: rest => Ok (foldl Z.max x rest)
  end.

(** [s.startswith(prefix)] *)
Fixpoint startswith (s prefix : str) : bool :=
  match prefix, s with
  | [], _ => true
  | _ :: _, [] => false
  | p :: prefix', c :: s' => Ascii.eqb p c && startswith s' prefix'
  end.

(** [sub in s] *)
Fixpoint contains (sub s : str) : bool :=
  startswith s sub ||
  match s with
  | [] => false
  | _ :: s' => contains sub s'
  end.

(** [s.split(sep)] for a non-empty [sep]: the pieces between the
    occurrences of [sep], found left to right without overlap. [skip]
    counts the characters of a found separator still to be passed over
    and [cur] holds the piece under construction, last character first. *)
Fixpoint split_go (sep : str) (skip : nat) (cur : str) (s : str) : list str :=
  match s with
  | [] => [rev cur]
  | c :: s' =>
      match skip with
      | S k => split_go sep k cur s'
      | O =>
          if startswith s sep
          then rev cur :: split_go sep (Nat.pred (length sep)) [] s'
          else split_go sep 0 (c :: cur) s'
      end
  end.

Definition split (sep s : str) : list str := split_go sep 0 [] s.

End py.

(** ** [os.linesep] *)

Module os.

(** The two values of [os.name] that decide [os.linesep]. *)
Inductive platform : Type :=
| posix
| nt.

Definition LF : ascii := "010"%char.
Definition CR : ascii := "013"%char.

Definition linesep (p : platform) : str :=
  match p with
  | posix => [LF]
  | nt => [CR; LF]
  end.

End os.

(** [textual.geometry.Offset]: a named tuple [(x, y)]. *)
Definition Offset : Type := (Z * Z)%type.

(** ** [_buffer.py]: class [Buffer] *)

Module Buffer.

(** The one attribute, [self._lines]: a list of lines, each a list of
    characters. Every line is a list object of its own ([__init__] makes
    the first, [insert_linebreak] makes each further one by slicing), so
    mutating [self._lines[y]] in place changes row [y] and no other. *)
Record t : Type := mk { _lines : list (list ascii) }.

(** [Buffer()] *)
Definition __init__ : t := mk [[]].

Definition max_y (self : t) : Z := py.len (_lines self).

Definition max_x (self : t) : result Z :=
  py.max (map py.len (_lines self)).

(** The [try] catches [IndexError] and nothing else. *)
Definition get_line_length (self : t) (y : Z) : result (option Z) :=
  match py.getitem (_lines self) y with
  | Ok line => Ok (Some (py.len line))
  | Raise IndexError => Ok None
  | Raise e => Raise e
  end.

Definition insert_linebreak (self : t) (position : Offset) : result t :=
  let '(x, y) := position in
  row ← py.getitem (_lines self) y;
  let line := py.slice_from row x in
  lines ← py.setitem (_lines self) y (py.del_slice_from row x);
  Ok (mk (py.insert lines (y + 1) line)).

(** The loop of [insert_text]: one [self._lines[y].insert(x, char)] per
    character, [x] the same every time. *)
Fixpoint insert_chars (lines : list (list ascii)) (x y : Z) (text : str)
  : result (list (list ascii)) :=
  match text with
  | [] => Ok lines
  | char :: rest =>
      row ← py.getitem lines y;
      lines' ← py.setitem lines y (py.insert row x char);
      insert_chars lines' x y rest
  end.

Definition delete_text (self : t) (position : Offset) : result t :=
  let '(x, y) := position in
  row ← py.getitem (_lines self) y;
  row' ← py.delitem row x;
  lines ← py.setitem (_lines self) y row';
  Ok (mk lines).

Section Platform.
Variable p : os.platform.

Definition write (self : t) : str :=
  let lines := map (fun line => py.join [] (map (fun c => [c]) line)) (_lines self) in
  py.join (os.linesep p) lines.

Definition insert_text (self : t) (position : Offset) (text : str) : result t :=
  let '(x, y) := position in
  if decide (text = os.linesep p)
  then insert_linebreak self position
  else
    lines ← insert_chars (_lines self) x y text;
    Ok (mk lines).

End Platform.

End Buffer.

(** ** [_textarea.py] *)

Section SegmentLookup.
(** [rich.segment.Segment] and its [cell_length] property. *)
Variable Segment : Type.
Variable cell_length : Segment -> Z.

(** The loop of [_get_segment_index_from_cell_index], at segment
    [segment_index] with [length] cells counted so far.
    [cell_index in range(a, b)] is [a <= cell_index < b]. *)
Fixpoint segment_loop (cell_index : Z) (length : Z) (segment_index : Z)
    (line : list Segment) : option Z :=
  match line with
  | [] => None
  | segment :: rest =>
      let cell_length := cell_length segment in
      let length := length + cell_length in
      if (length - cell_length <=? cell_index) && (cell_index <? length)
      then Some segment_index
      else segment_loop cell_index length (segment_index + 1) rest
  end.

Definition _get_segment_index_from_cell_index (cell_index : Z)
    (line : list Segment) : option Z :=
  segment_loop cell_index 0 0 line.

End SegmentLookup.

Definition _is_negative (number : Z) : bool := number <? 0.

Module TextArea.

Section Widget.
Variable p : os.platform.
Variable Segment : Type.
(** [Syntax(text, "")] rendered by [console.render_lines] with
    [options.max_width] and [options.height]: the highlighting engine. *)
Variable render_lines : str -> Z -> Z -> list (list Segment).

(** The widget's state: the buffer and the reactive attributes
    [lines], [cursor_y], [cursor_x], and [virtual_size]. The reactive
    [cursor_offset] is computed from the others at every read. *)
Record t : Type := mk {
  _buffer : Buffer.t;
  lines : list (list Segment);
  cursor_y : Z;
  cursor_x : Z;
  virtual_size : Z * Z
}.

(** [TextArea()] *)
Definition __init__ : t := mk Buffer.__init__ [] 0 0 (0, 0).

Definition compute_cursor_offset (self : t) : Offset :=
  (cursor_x self, cursor_y self).

Definition cursor_offset (self : t) : Offset := compute_cursor_offset self.

Definition validate_cursor_x (self : t) (cursor_x : Z) : result Z :=
  if _is_negative 0 then Ok 0
  else
    line_length ← Buffer.get_line_length (_buffer self) (cursor_y self);
    match line_length with
    | None => Ok cursor_x
    | Some line_length =>
        if cursor_x >? line_length then Ok line_length else Ok cursor_x
    end.

Definition validate_cursor_y (self : t) (cursor_y : Z) : result Z :=
  if _is_negative cursor_y then Ok 0
  else
    let last_line := Buffer.max_y (_buffer self) - 1 in
    if cursor_y >? last_line then Ok last_line else Ok cursor_y.

(** Assignment to a reactive attribute: textual passes the value
    through [validate_<name>] and stores what that returns. *)
Definition set_cursor_x (self : t) (value : Z) : result t :=
  value ← validate_cursor_x self value;
  Ok (mk (_buffer self) (lines self) (cursor_y self) value (virtual_size self)).

Definition set_cursor_y (self : t) (value : Z) : result t :=
  value ← validate_cursor_y self value;
  Ok (mk (_buffer self) (lines self) value (cursor_x self) (virtual_size self)).

Definition set_buffer (self : t) (b : Buffer.t) : t :=
  mk b (lines self) (cursor_y self) (cursor_x self) (virtual_size self).

Definition action_cursor_left (self : t) : result t :=
  set_cursor_x self (cursor_x self - 1).

Definition action_cursor_right (self : t) : result t :=
  set_cursor_x self (cursor_x self + 1).

Definition action_cursor_up (self : t) : result t :=
  set_cursor_y self (cursor_y self - 1).

Definition action_cursor_down (self : t) : result t :=
  set_cursor_y self (cursor_y self + 1).

Definition _make_lines (self : t) : result (list (list Segment)) :=
  let text := Buffer.write p (_buffer self) in
  max_width ← Buffer.max_x (_buffer self);
  let height := Buffer.max_y (_buffer self) in
  Ok (render_lines text max_width height).

Definition _update_lines (self : t) : result t :=
  lines ← _make_lines self;
  max_x ← Buffer.max_x (_buffer self);
  Ok (mk (_buffer self) lines (cursor_y self) (cursor_x self)
        (max_x, Buffer.max_y (_buffer self))).

Definition action_insert_linebreak_at_cursor (self : t) : result t :=
  b ← Buffer.insert_linebreak (_buffer self) (cursor_offset self);
  self ← action_cursor_down (set_buffer self b);
  self ← set_cursor_x self 0;
  _update_lines self.

Definition insert_text_at_cursor (self : t) (text : str) : result t :=
  b ← Buffer.insert_text p (_buffer self) (cursor_offset self) text;
  self ← _update_lines (set_buffer self b);
  set_cursor_x self (cursor_x self + py.len text).

End Widget.

End TextArea.

(** ** Vocabulary of the statements *)

(** The line at row [y], rows counted from 0. *)
Definition row (self : Buffer.t) (y : Z) : option (list ascii) :=
  if y <? 0 then None else Buffer._lines self !! Z.to_nat y.

(** Positions in range: an existing row, and a column in
    [0 .. len(line)] for an insertion, in [0 .. len(line) - 1] for a
    deletion. *)
Definition insertion_point (self : Buffer.t) (position : Offset) : bool :=
  let '(x, y) := position in
  match row self y with
  | Some line => (0 <=? x) && (x <=? py.len line)
  | None => false
  end.

Definition deletion_point (self : Buffer.t) (position : Offset) : bool :=
  let '(x, y) := position in
  match row self y with
  | Some line => (0 <=? x) && (x <? py.len line)
  | None => false
  end.

(** A position that fits an index of the machine whatever the platform,
    a [Py_ssize_t] of 32 bits: [list.insert] takes it without
    [OverflowError]. *)
Definition fits_index (i : Z) : Prop := -2147483648 <= i <= 2147483647.

(** The mutating operations of a [Buffer], as data, and sequences of them. *)
Inductive op : Type :=
| InsertText (position : Offset) (text : str)
| DeleteText (position : Offset)
| InsertLinebreak (position : Offset).

Definition apply (p : os.platform) (o : op) (self : Buffer.t) : result Buffer.t :=
  match o with
  | InsertText position text => Buffer.insert_text p self position text
  | DeleteText position => Buffer.delete_text self position
  | InsertLinebreak position => Buffer.insert_linebreak self position
  end.

Fixpoint run (p : os.platform) (ops : list op) (self : Buffer.t) : result Buffer.t :=
  match ops with
  | [] => Ok self
  | o :: rest => self' ← apply p o self; run p rest self'
  end.

Definition op_in_range (self : Buffer.t) (o : op) : bool :=
  match o with
  | InsertText position _ => insertion_point self position
  | DeleteText position => deletion_point self position
  | InsertLinebreak position => insertion_point self position
  end.

(** The buffer once the call has returned or raised: each operation
    raises, if it does, before it has changed anything. *)
Definition after (p : os.platform) (o : op) (self : Buffer.t) : Buffer.t :=
  match apply p o self with
  | Ok self' => self'
  | Raise _ => self
  end.

(** Every operation of the sequence is at a position in range of the
    buffer it is applied to. *)
Fixpoint ops_in_range (p : os.platform) (self : Buffer.t) (ops : list op) : bool :=
  match ops with
  | [] => true
  | o :: rest => op_in_range self o && ops_in_range p (after p o self) rest
  end.

(** [delete_text] at the same position, [n] times in a row. *)
Fixpoint delete_span (n : nat) (self : Buffer.t) (position : Offset) : result Buffer.t :=
  match n with
  | O => Ok self
  | S n' => self' ← Buffer.delete_text self position; delete_span n' self' position
  end.

(** [s] with [t] put in at character offset [off]. *)
Definition splice (s : str) (off : nat) (t : str) : str :=
  take off s ++ t ++ drop off s.

(** The character offset, in the serialization, of column [x] of row [k]:
    every row before it counts its characters and one separator. *)
Fixpoint char_offset (sep : str) (lines : list (list ascii)) (k : nat) (x : nat) : nat :=
  match k, lines with
  | S k', line :: rest => (length line + length sep + char_offset sep rest k' x)%nat
  | _, _ => x
  end.

(** The number of lines a reader of the serialization sees:
    [len(self.write().split(os.linesep))]. *)
Definition split_line_count (p : os.platform) (self : Buffer.t) : Z :=
  py.len (py.split (os.linesep p) (Buffer.write p self)).

Section Widths.
Variable Segment : Type.
Variable cell_length : Segment -> Z.

(** The cells of a sequence of runs; the run at index [i] of [line]
    covers the cells from [width (take i line)] up to, not including,
    [width (take (S i) line)]. *)
Fixpoint width (line : list Segment) : Z :=
  match line with
  | [] => 0
  | segment :: rest => cell_length segment + width rest
  end.

End Widths.

(** ** [_set_cursor] *)

Section CursorOverlay.
(** [rich.segment.Segment] with its [text] attribute, its [cell_length]
    property and its constructor [Segment(text, style)], and the three
    class methods of it that [_set_cursor] calls. *)
Variable Segment : Type.
Variable Style : Type.
Variable cell_length : Segment -> Z.
Variable text : Segment -> str.
Variable Segment_ : str -> Style -> Segment.
Variable get_line_length : list Segment -> Z.
(** [Segment.divide] may raise (it asserts on the cuts it is given); what
    it raises comes out where its result is consumed, inside
    [_set_cursor]. *)
Variable divide : list Segment -> list Z -> result (list (list Segment)).
Variable adjust_line_length : list Segment -> Z -> list Segment.

(** The cuts [_set_cursor] divides the line at. *)
Definition cursor_cuts (index : Z) (line : list Segment) : list Z :=
  [0; index; index + 1; get_line_length line].

(** The line [_set_cursor] searches: the pieces of the division
    flattened, and adjusted to one cell more than the line had. *)
Definition cursor_segments (line : list Segment) (pieces : list (list Segment))
    : list Segment :=
  adjust_line_length (concat pieces) (get_line_length line + 1).

Definition _set_cursor (index : Z) (line : list Segment) (style : Style)
    : result (list Segment) :=
  let line_length := get_line_length line in
  segments ← divide line [0; index; index + 1; line_length];
  let segments := concat segments in
  let segments := adjust_line_length segments (line_length + 1) in
  match _get_segment_index_from_cell_index Segment cell_length index segments with
  | None => Ok line
  | Some cursor_segment_index =>
      cursor_segment ← py.getitem segments cursor_segment_index;
      let cursor_segment := Segment_ (text cursor_segment) style in
      py.setitem segments cursor_segment_index cursor_segment
  end.

End CursorOverlay.

(** ** [TextArea.render_line] *)

Section Rendering.
Variable Segment : Type.
Variable Style : Type.
Variable cell_length : Segment -> Z.
Variable text : Segment -> str.
Variable Segment_ : str -> Style -> Segment.
Variable get_line_length : list Segment -> Z.
Variable divide : list Segment -> list Z -> result (list (list Segment)).
Variable adjust_line_length : list Segment -> Z -> list Segment.
(** [textual.strip.Strip]: [Strip.blank(cell_length, style)],
    [Strip(segments)] and [strip.crop(start, end)]. *)
Variable Strip : Type.
Variable Strip_blank : Z -> option Style -> Strip.
Variable Strip_ : list Segment -> Strip.
Variable crop : Strip -> Z -> Z -> Strip.
(** Of the widget: [self.scroll_offset], [self.size.width] and the style
    [self.get_component_rich_style("textarea--cursor")]. *)
Variable scroll_offset : Offset.
Variable width_of_size : Z.
Variable cursor_style : Style.

Definition render_line (self : TextArea.t Segment) (y : Z) : result Strip :=
  let '(scroll_x, scroll_y) := scroll_offset in
  let y := y + scroll_y in
  match py.getitem (TextArea.lines Segment self) y with
  | Raise IndexError =>
      if y =? 0 then Ok (Strip_blank 1 (Some cursor_style))
      else Ok (Strip_blank 0 None)
  | Raise e => Raise e
  | Ok segments =>
      let '(cursor_x, cursor_y) := TextArea.cursor_offset Segment self in
      segments ←
        (if y =? cursor_y
         then _set_cursor Segment Style cell_length text Segment_ get_line_length
                divide adjust_line_length cursor_x segments cursor_style
         else Ok segments);
      let line := Strip_ segments in
      let line := crop line scroll_x (scroll_x + width_of_size) in
      Ok line
  end.

End Rendering.

(** ** The actions of the text area, as data *)

Inductive action : Type :=
| CursorLeft
| CursorRight
| CursorUp
| CursorDown
| InsertLinebreakAtCursor
| InsertTextAtCursor (text : str).

Definition is_move (a : action) : bool :=
  match a with
  | CursorLeft | CursorRight | CursorUp | CursorDown => true
  | _ => false
  end.

Section Actions.
Variable p : os.platform.
Variable Segment : Type.
Variable render_lines : str -> Z -> Z -> list (list Segment).

Definition perform (a : action) (self : TextArea.t Segment)
    : result (TextArea.t Segment) :=
  match a with
  | CursorLeft => TextArea.action_cursor_left Segment self
  | CursorRight => TextArea.action_cursor_right Segment self
  | CursorUp => TextArea.action_cursor_up Segment self
  | CursorDown => TextArea.action_cursor_down Segment self
  | InsertLinebreakAtCursor =>
      TextArea.action_insert_linebreak_at_cursor p Segment render_lines self
  | InsertTextAtCursor text =>
      TextArea.insert_text_at_cursor p Segment render_lines self text
  end.

Fixpoint perform_all (actions : list action) (self : TextArea.t Segment)
    : result (TextArea.t Segment) :=
  match actions with
  | [] => Ok self
  | a :: rest => self' ← perform a self; perform_all rest self'
  end.

(** The printable keys of [_on_key], one after the other: each character
    goes to [insert_text_at_cursor] as a text of its own. *)
Fixpoint type_text (self : TextArea.t Segment) (text : str)
    : result (TextArea.t Segment) :=
  match text with
  | [] => Ok self
  | c :: rest =>
      self' ← TextArea.insert_text_at_cursor p Segment render_lines self [c];
      type_text self' rest
  end.

(** [lines] and [virtual_size] are those of the buffer as it is. *)
Definition rendered (self : TextArea.t Segment) : Prop :=
  exists max_x,
    Buffer.max_x (TextArea._buffer Segment self) = Ok max_x
    /\ TextArea.lines Segment self
       = render_lines (Buffer.write p (TextArea._buffer Segment self)) max_x
           (Buffer.max_y (TextArea._buffer Segment self))
    /\ TextArea.virtual_size Segment self
       = (max_x, Buffer.max_y (TextArea._buffer Segment self)).

End Actions.

(** The cursor's row is a row of the buffer, and its column is not beyond
    the longest line. *)
Definition cursor_on_text {Segment : Type} (self : TextArea.t Segment) : Prop :=
  0 <= TextArea.cursor_y Segment self < Buffer.max_y (TextArea._buffer Segment self)
  /\ exists max_x,
      Buffer.max_x (TextArea._buffer Segment self) = Ok max_x
      /\ TextArea.cursor_x Segment self <= max_x.

(** * Properties *)

(** ** Python indexing inside the list *)

Section PythonLists.
Context {A : Type}.
Implicit Types (l : list A) (i : Z) (k : nat).

Lemma len_nonneg l : 0 <= py.len l.
Proof. unfold py.len. lia. Qed.

Lemma norm_index_in_range n i :
  0 <= i < n -> py.norm_index n i = Some (Z.to_nat i).
Proof.
  intros H. unfold py.norm_index.
  destruct (Z.ltb_spec i 0); [lia|].
  destruct (Z.leb_spec 0 i); [|lia].
  destruct (Z.ltb_spec i n); [reflexivity|lia].
Qed.

Lemma norm_index_Some n i k :
  py.norm_index n i = Some k -> (k < Z.to_nat n)%nat.
Proof.
  unfold py.norm_index.
  destruct (Z.ltb_spec i 0);
    (match goal with |- context [(0 <=? ?j) && _] =>
       destruct (Z.leb_spec 0 j); [|discriminate];
       destruct (Z.ltb_spec j n); [|discriminate] end);
    simpl; intros [= <-]; lia.
Qed.

Lemma norm_index_None n i :
  0 <= n -> (n <= i \/ i < - n) -> py.norm_index n i = None.
Proof.
  intros Hn H. unfold py.norm_index.
  destruct (Z.ltb_spec i 0).
  - destruct (Z.leb_spec 0 (i + n)); [|reflexivity].
    destruct (Z.ltb_spec (i + n) n); [lia|reflexivity].
  - destruct (Z.leb_spec 0 i); [|reflexivity].
    destruct (Z.ltb_spec i n); [lia|reflexivity].
Qed.

Lemma clamp_index_in_range n i :
  0 <= i <= n -> py.clamp_index n i = Z.to_nat i.
Proof.
  intros H. unfold py.clamp_index.
  destruct (Z.ltb_spec i 0); [lia|]. f_equal. lia.
Qed.

Lemma clamp_index_le n i : 0 <= n -> (py.clamp_index n i <= Z.to_nat n)%nat.
Proof.
  intros H. unfold py.clamp_index. destruct (Z.ltb_spec i 0); lia.
Qed.

Lemma lookup_len l k a : l !! k = Some a -> Z.of_nat k < py.len l.
Proof. intros H%lookup_lt_Some. unfold py.len. lia. Qed.

Lemma getitem_in_range l i a :
  0 <= i -> l !! Z.to_nat i = Some a -> py.getitem l i = Ok a.
Proof.
  intros Hi Hl. unfold py.getitem.
  pose proof (lookup_len _ _ _ Hl).
  rewrite norm_index_in_range by lia. by rewrite Hl.
Qed.

Lemma setitem_in_range l i a v :
  0 <= i -> l !! Z.to_nat i = Some a ->
  py.setitem l i v = Ok (<[Z.to_nat i := v]> l).
Proof.
  intros Hi Hl. unfold py.setitem.
  pose proof (lookup_len _ _ _ Hl).
  by rewrite norm_index_in_range by lia.
Qed.

Lemma delitem_in_range l i :
  0 <= i < py.len l ->
  py.delitem l i = Ok (take (Z.to_nat i) l ++ drop (S (Z.to_nat i)) l).
Proof.
  intros Hi. unfold py.delitem. by rewrite norm_index_in_range.
Qed.

Lemma insert_in_range l i v :
  0 <= i <= py.len l ->
  py.insert l i v = take (Z.to_nat i) l ++ v :: drop (Z.to_nat i) l.
Proof.
  intros Hi. unfold py.insert. by rewrite clamp_index_in_range.
Qed.

Lemma slice_from_in_range l i :
  0 <= i <= py.len l -> py.slice_from l i = drop (Z.to_nat i) l.
Proof.
  intros Hi. unfold py.slice_from. by rewrite clamp_index_in_range.
Qed.

Lemma del_slice_from_in_range l i :
  0 <= i <= py.len l -> py.del_slice_from l i = take (Z.to_nat i) l.
Proof.
  intros Hi. unfold py.del_slice_from. by rewrite clamp_index_in_range.
Qed.

(** [setitem] and [insert] whatever the index: the effect on the length. *)
Lemma setitem_length l i v l' :
  py.setitem l i v = Ok l' -> length l' = length l.
Proof.
  unfold py.setitem. destruct (py.norm_index _ _); [|discriminate].
  intros [= <-]. apply length_insert.
Qed.

Lemma insert_length l i v : length (py.insert l i v) = S (length l).
Proof.
  unfold py.insert. rewrite length_app. simpl.
  rewrite length_take, length_drop.
  pose proof (clamp_index_le (py.len l) i (len_nonneg l)).
  unfold py.len in *. lia.
Qed.

End PythonLists.

(** ** The buffer at positions in range *)

Lemma bind_Ok {A B : Type} (a : A) (k : A -> result B) : (Ok a ≫= k) = k a.
Proof. reflexivity. Qed.

Lemma bind_Ok_inv {A B : Type} (r : result A) (k : A -> result B) (b : B) :
  (r ≫= k) = Ok b -> exists a, r = Ok a /\ k a = Ok b.
Proof. destruct r as [a|e]; [eauto|discriminate]. Qed.

Lemma row_Some self y line :
  row self y = Some line ->
  0 <= y < Buffer.max_y self /\ Buffer._lines self !! Z.to_nat y = Some line.
Proof.
  unfold row, Buffer.max_y. destruct (Z.ltb_spec y 0) as [Hy|Hy]; [discriminate|].
  intros Hl. pose proof (lookup_len _ _ _ Hl). split; [lia|done].
Qed.

Lemma insertion_point_true self x y :
  insertion_point self (x, y) = true ->
  exists line, row self y = Some line /\ 0 <= x <= py.len line.
Proof.
  unfold insertion_point. destruct (row self y) as [line|]; [|discriminate].
  intros [H1 H2]%andb_prop. exists line. split; [done|]. lia.
Qed.

Lemma deletion_point_true self x y :
  deletion_point self (x, y) = true ->
  exists line, row self y = Some line /\ 0 <= x < py.len line.
Proof.
  unfold deletion_point. destruct (row self y) as [line|]; [|discriminate].
  intros [H1 H2]%andb_prop. exists line. split; [done|]. lia.
Qed.

Lemma insert_chars_in_range text : forall lines x y line,
  0 <= y -> lines !! Z.to_nat y = Some line -> 0 <= x <= py.len line ->
  Buffer.insert_chars lines x y text =
  Ok (<[Z.to_nat y := take (Z.to_nat x) line ++ rev text ++ drop (Z.to_nat x) line]> lines).
Proof.
  induction text as [|char rest IH]; intros lines x y line Hy Hl Hx; simpl.
  - rewrite take_drop. by rewrite list_insert_id.
  - rewrite (getitem_in_range _ _ _ Hy Hl), bind_Ok.
    rewrite (setitem_in_range _ _ _ _ Hy Hl), bind_Ok.
    rewrite insert_in_range by done.
    assert (Hk : (Z.to_nat x <= length line)%nat) by (unfold py.len in Hx; lia).
    pose proof (lookup_lt_Some _ _ _ Hl) as Hlt.
    rewrite (IH _ x y (take (Z.to_nat x) line ++ char :: drop (Z.to_nat x) line)).
    + rewrite list_insert_insert_eq. f_equal. f_equal.
      rewrite take_app_length' by (rewrite length_take; lia).
      rewrite drop_app_length' by (rewrite length_take; lia).
      by rewrite <- !app_assoc.
    + done.
    + by apply list_lookup_insert_eq.
    + unfold py.len in *. rewrite length_app, length_take. simpl.
      rewrite length_drop. lia.
Qed.

Lemma insert_linebreak_in_range self x y line :
  row self y = Some line -> 0 <= x <= py.len line ->
  Buffer.insert_linebreak self (x, y) =
  Ok (Buffer.mk (take (Z.to_nat y) (Buffer._lines self)
                 ++ take (Z.to_nat x) line :: drop (Z.to_nat x) line
                 :: drop (S (Z.to_nat y)) (Buffer._lines self))).
Proof.
  intros [[Hy Hmax] Hl]%row_Some Hx. unfold Buffer.insert_linebreak.
  rewrite (getitem_in_range _ _ _ Hy Hl), bind_Ok.
  rewrite (setitem_in_range _ _ _ _ Hy Hl), bind_Ok.
  rewrite slice_from_in_range, del_slice_from_in_range by done.
  pose proof (lookup_lt_Some _ _ _ Hl) as Hlt.
  rewrite insert_in_range
    by (unfold py.len, Buffer.max_y in *; rewrite length_insert; lia).
  rewrite insert_take_drop by done.
  replace (Z.to_nat (y + 1)) with (S (Z.to_nat y)) by lia.
  f_equal. f_equal.
  set (k := Z.to_nat y) in *.
  assert (Hk : length (take k (Buffer._lines self)) = k)
    by (rewrite length_take; lia).
  replace (S k) with (k + 1)%nat at 1 3 by lia.
  rewrite (take_app_add' _ _ k 1), (drop_app_add' _ _ k 1) by done.
  simpl. rewrite take_0, drop_0. by rewrite <- app_assoc.
Qed.

Lemma delete_text_in_range self x y line :
  row self y = Some line -> 0 <= x < py.len line ->
  Buffer.delete_text self (x, y) =
  Ok (Buffer.mk (<[Z.to_nat y := take (Z.to_nat x) line ++ drop (S (Z.to_nat x)) line]>
                   (Buffer._lines self))).
Proof.
  intros [[Hy Hmax] Hl]%row_Some Hx. unfold Buffer.delete_text.
  rewrite (getitem_in_range _ _ _ Hy Hl), bind_Ok.
  rewrite delitem_in_range, bind_Ok by done.
  by rewrite (setitem_in_range _ _ _ _ Hy Hl), bind_Ok.
Qed.

Lemma insert_text_in_range p self x y line text :
  row self y = Some line -> 0 <= x <= py.len line -> text <> os.linesep p ->
  Buffer.insert_text p self (x, y) text =
  Ok (Buffer.mk (<[Z.to_nat y := take (Z.to_nat x) line ++ rev text ++ drop (Z.to_nat x) line]>
                   (Buffer._lines self))).
Proof.
  intros [[Hy Hmax] Hl]%row_Some Hx Hsep. unfold Buffer.insert_text.
  destruct (decide (text = os.linesep p)) as [?|_]; [done|].
  by rewrite (insert_chars_in_range _ _ _ _ _ Hy Hl Hx), bind_Ok.
Qed.

(** ** The cell/segment index translator *)

Section SegmentLookupFacts.
Variable Segment : Type.
Variable cell_length : Segment -> Z.

Local Abbreviation nonneg := (fun segment : Segment => 0 <= cell_length segment).

Lemma width_nonneg line : Forall nonneg line -> 0 <= width Segment cell_length line.
Proof.
  induction 1 as [|segment rest Hs _ IH]; simpl; lia.
Qed.

Lemma width_take_S line i segment :
  line !! i = Some segment ->
  width Segment cell_length (take (S i) line) =
  width Segment cell_length (take i line) + cell_length segment.
Proof.
  revert i. induction line as [|s rest IH]; intros [|i] H; try discriminate.
  - injection H as ->. simpl. lia.
  - simpl in H. change (take (S (S i)) (s :: rest)) with (s :: take (S i) rest).
    change (take (S i) (s :: rest)) with (s :: take i rest).
    simpl. rewrite (IH _ H). lia.
Qed.

(** The loop, started with [length] cells behind it, stops at the run
    whose interval holds the cell. *)
Lemma segment_loop_found cell_index line : forall length segment_index i segment,
  Forall nonneg line ->
  line !! i = Some segment ->
  length + width Segment cell_length (take i line) <= cell_index
    < length + width Segment cell_length (take i line) + cell_length segment ->
  segment_loop Segment cell_length cell_index length segment_index line =
  Some (segment_index + Z.of_nat i).
Proof.
  induction line as [|s rest IH]; intros length segment_index i segment Hnn Hl Hc.
  - discriminate.
  - apply Forall_cons in Hnn as [Hs Hrest].
    destruct i as [|i]; simpl in *.
    + injection Hl as ->.
      destruct (Z.leb_spec (length + cell_length segment - cell_length segment) cell_index);
        [|lia].
      destruct (Z.ltb_spec cell_index (length + cell_length segment)); [|lia].
      simpl. f_equal. lia.
    + pose proof (width_nonneg (take i rest) (Forall_take _ _ _ Hrest)) as Hw.
      destruct (Z.ltb_spec cell_index (length + cell_length s)); [lia|].
      rewrite andb_false_r.
      rewrite (IH (length + cell_length s) (segment_index + 1) i segment Hrest Hl)
        by lia.
      f_equal. lia.
Qed.

Lemma segment_loop_beyond cell_index line : forall length segment_index,
  Forall nonneg line ->
  length + width Segment cell_length line <= cell_index ->
  segment_loop Segment cell_length cell_index length segment_index line = None.
Proof.
  induction line as [|s rest IH]; intros length segment_index Hnn Hc; [done|].
  apply Forall_cons in Hnn as [Hs Hrest].
  pose proof (width_nonneg rest Hrest) as Hw. simpl in *.
  destruct (Z.ltb_spec cell_index (length + cell_length s)); [lia|].
  rewrite andb_false_r. apply IH; [done|lia].
Qed.

(** A cell before the first one is in no run. *)
Lemma segment_loop_before cell_index line : forall length segment_index,
  Forall nonneg line -> cell_index < length ->
  segment_loop Segment cell_length cell_index length segment_index line = None.
Proof.
  induction line as [|s rest IH]; intros length segment_index Hnn Hc; [done|].
  apply Forall_cons in Hnn as [Hs Hrest]. simpl.
  destruct (Z.leb_spec (length + cell_length s - cell_length s) cell_index); [lia|].
  simpl. apply IH; [done|lia].
Qed.

(** Whatever the widths, an index the loop returns is that of a run whose
    interval holds the cell. *)
Lemma segment_loop_sound cell_index line : forall length segment_index j,
  segment_loop Segment cell_length cell_index length segment_index line = Some j ->
  exists i segment,
    j = segment_index + Z.of_nat i /\ line !! i = Some segment
    /\ length + width Segment cell_length (take i line) <= cell_index
         < length + width Segment cell_length (take i line) + cell_length segment.
Proof.
  induction line as [|s rest IH]; intros length segment_index j; [done|].
  cbn [segment_loop].
  destruct (Z.leb_spec (length + cell_length s - cell_length s) cell_index);
    destruct (Z.ltb_spec cell_index (length + cell_length s)); cbn [andb].
  - intros [= <-]. exists 0%nat, s. simpl. split; [lia|]. split; [done|lia].
  - intros (i & segment & -> & Hl & Hc)%IH. exists (S i), segment.
    simpl. split; [lia|]. split; [done|lia].
  - intros (i & segment & -> & Hl & Hc)%IH. exists (S i), segment.
    simpl. split; [lia|]. split; [done|lia].
  - intros (i & segment & -> & Hl & Hc)%IH. exists (S i), segment.
    simpl. split; [lia|]. split; [done|lia].
Qed.

(** C5. For runs of non-negative cell widths and every target cell the
    translator returns the index [i] of the run whose interval of
    cumulative widths, from [width (take i line)] up to
    [width (take (S i) line)], holds the target cell; it returns [None]
    when the target cell is at or beyond the total width, and when it is
    negative; an index it returns is always that of a run of the line
    whose interval holds the cell; for the widths 2, 3, 1 and cell 4 it
    returns index 1, the second run. *)
Theorem segment_index_covers_cell (line : list Segment) (cell_index : Z) :
  Forall (fun segment => 0 <= cell_length segment) line ->
  (forall i segment,
      line !! i = Some segment ->
      width Segment cell_length (take i line) <= cell_index
        < width Segment cell_length (take (S i) line) ->
      _get_segment_index_from_cell_index Segment cell_length cell_index line
      = Some (Z.of_nat i))
  /\ (width Segment cell_length line <= cell_index ->
      _get_segment_index_from_cell_index Segment cell_length cell_index line = None)
  /\ (cell_index < 0 ->
      _get_segment_index_from_cell_index Segment cell_length cell_index line = None)
  /\ (forall j,
      _get_segment_index_from_cell_index Segment cell_length cell_index line = Some j ->
      exists i segment,
        j = Z.of_nat i /\ line !! i = Some segment
        /\ width Segment cell_length (take i line) <= cell_index
             < width Segment cell_length (take (S i) line))
  /\ _get_segment_index_from_cell_index Z id 4 [2; 3; 1] = Some 1.
Proof.
  intros Hnn. split; [|split; [|split; [|split]]].
  - intros i segment Hl Hc. rewrite (width_take_S _ _ _ Hl) in Hc.
    unfold _get_segment_index_from_cell_index.
    rewrite (segment_loop_found cell_index line 0 0 i segment Hnn Hl) by lia.
    f_equal.
  - intros Hc. unfold _get_segment_index_from_cell_index.
    apply segment_loop_beyond; [done|lia].
  - intros Hc. unfold _get_segment_index_from_cell_index.
    by apply segment_loop_before.
  - intros j. unfold _get_segment_index_from_cell_index.
    intros (i & segment & -> & Hl & Hc)%segment_loop_sound.
    exists i, segment. split; [lia|]. split; [done|].
    rewrite (width_take_S _ _ _ Hl). lia.
  - reflexivity.
Qed.

End SegmentLookupFacts.

Lemma segment_index_covers_cell_witness :
  Forall (fun segment => 0 <= id segment) [2; 3; 1]
  /\ _get_segment_index_from_cell_index Z id 4 [2; 3; 1] = Some 1
  /\ _get_segment_index_from_cell_index Z id 6 [2; 3; 1] = None
  /\ _get_segment_index_from_cell_index Z id (-1) [2; 3; 1] = None
  /\ exists i segment,
      0 = Z.of_nat i /\ [2; 3; 1] !! i = Some segment
      /\ width Z id (take i [2; 3; 1]) <= 1 < width Z id (take (S i) [2; 3; 1]).
Proof.
  assert (H : Forall (fun segment => 0 <= id segment) [2; 3; 1])
    by (repeat constructor; unfold id; lia).
  split; [exact H|].
  destruct (segment_index_covers_cell Z id [2; 3; 1] 4 H) as [Hin _].
  destruct (segment_index_covers_cell Z id [2; 3; 1] 6 H) as (_ & Hout & _).
  destruct (segment_index_covers_cell Z id [2; 3; 1] (-1) H) as (_ & _ & Hneg & _).
  destruct (segment_index_covers_cell Z id [2; 3; 1] 1 H) as (_ & _ & _ & Hsound & _).
  split; [|split; [|split]].
  - apply (Hin 1%nat 3); [reflexivity|]. simpl. unfold id. lia.
  - apply Hout. simpl. unfold id. lia.
  - apply Hneg. lia.
  - apply (Hsound 0). reflexivity.
Defined.

(** ** Line lengths *)

Lemma get_line_length_row self y line :
  row self y = Some line ->
  Buffer.get_line_length self y = Ok (Some (py.len line)).
Proof.
  intros [[Hy _] Hl]%row_Some. unfold Buffer.get_line_length.
  by rewrite (getitem_in_range _ _ _ Hy Hl).
Qed.

Lemma get_line_length_beyond self y :
  Buffer.max_y self <= y \/ y < - Buffer.max_y self ->
  Buffer.get_line_length self y = Ok None.
Proof.
  intros H. unfold Buffer.get_line_length, py.getitem.
  by rewrite norm_index_None by (apply len_nonneg || exact H).
Qed.

(** A negative row down to [- max_y] counts from the last line. *)
Lemma get_line_length_from_end self y :
  - Buffer.max_y self <= y < 0 ->
  Buffer.get_line_length self y = Buffer.get_line_length self (y + Buffer.max_y self).
Proof.
  intros H. unfold Buffer.get_line_length, py.getitem, Buffer.max_y in *.
  rewrite (norm_index_in_range _ (y + _)) by lia.
  unfold py.norm_index.
  destruct (Z.ltb_spec y 0); [|lia].
  destruct (Z.leb_spec 0 (y + py.len (Buffer._lines self))); [|lia].
  destruct (Z.ltb_spec (y + py.len (Buffer._lines self)) (py.len (Buffer._lines self)));
    [|lia].
  reflexivity.
Qed.

Lemma get_line_length_never_raises self y :
  exists r, Buffer.get_line_length self y = Ok r.
Proof.
  unfold Buffer.get_line_length, py.getitem.
  destruct (py.norm_index _ _) as [k|]; [|eauto].
  destruct (_ !! k); eauto.
Qed.

(** C6. [get_line_length] with the row [-1], which is outside
    [0 .. max_y - 1], returns the length of the last line, 3, where the
    claim has it return [None]. *)
Theorem get_line_length_negative_row :
  let self := Buffer.mk [lit "ab"; lit "cde"] in
  ~ (0 <= -1 < Buffer.max_y self)
  /\ Buffer.get_line_length self (-1) = Ok (Some 3)
  /\ Buffer.get_line_length Buffer.__init__ (-1) = Ok (Some 0).
Proof. simpl. split; [lia|]. split; reflexivity. Qed.

(** ** The cursor clamps *)

Section CursorFacts.
Variable Segment : Type.
Implicit Types self : TextArea.t Segment.

(** What [validate_cursor_x] does with a negative target: nothing. *)
Lemma validate_cursor_x_negative self x :
  x < 0 -> TextArea.validate_cursor_x Segment self x = Ok x.
Proof.
  intros Hx. unfold TextArea.validate_cursor_x. simpl.
  destruct (get_line_length_never_raises (TextArea._buffer Segment self)
              (TextArea.cursor_y Segment self)) as [r Hr].
  rewrite Hr, bind_Ok. destruct r as [line_length|]; [|done].
  assert (0 <= line_length).
  { unfold Buffer.get_line_length in Hr.
    destruct (py.getitem _ _) as [line|[]]; try discriminate.
    injection Hr as <-. apply len_nonneg. }
  destruct (Z.gtb_spec x line_length); [lia|done].
Qed.

Lemma validate_cursor_x_beyond self x line :
  row (TextArea._buffer Segment self) (TextArea.cursor_y Segment self) = Some line ->
  py.len line < x ->
  TextArea.validate_cursor_x Segment self x = Ok (py.len line).
Proof.
  intros Hrow Hx. unfold TextArea.validate_cursor_x. simpl.
  rewrite (get_line_length_row _ _ _ Hrow), bind_Ok.
  destruct (Z.gtb_spec x (py.len line)); [done|lia].
Qed.

Lemma validate_cursor_x_inside self x line :
  row (TextArea._buffer Segment self) (TextArea.cursor_y Segment self) = Some line ->
  x <= py.len line ->
  TextArea.validate_cursor_x Segment self x = Ok x.
Proof.
  intros Hrow Hx. unfold TextArea.validate_cursor_x. simpl.
  rewrite (get_line_length_row _ _ _ Hrow), bind_Ok.
  destruct (Z.gtb_spec x (py.len line)); [lia|done].
Qed.

Lemma validate_cursor_y_inside self y :
  0 <= y <= Buffer.max_y (TextArea._buffer Segment self) - 1 ->
  TextArea.validate_cursor_y Segment self y = Ok y.
Proof.
  intros Hy. unfold TextArea.validate_cursor_y, _is_negative.
  destruct (Z.ltb_spec y 0); [lia|].
  destruct (Z.gtb_spec y (Buffer.max_y (TextArea._buffer Segment self) - 1));
    [lia|done].
Qed.

(** C8. Clamping a valid cursor position changes nothing:
    [validate_cursor_y] returns every row [y] with
    [0 <= y <= max_y - 1] as it is, and [validate_cursor_x] returns every
    column [x] with [0 <= x <= len(line)], [line] the line at the
    cursor's row, as it is. *)
Theorem clamp_of_valid_position_is_noop self :
  (forall y,
      0 <= y <= Buffer.max_y (TextArea._buffer Segment self) - 1 ->
      TextArea.validate_cursor_y Segment self y = Ok y)
  /\ (forall x line,
      row (TextArea._buffer Segment self) (TextArea.cursor_y Segment self) = Some line ->
      0 <= x <= py.len line ->
      TextArea.validate_cursor_x Segment self x = Ok x).
Proof.
  split.
  - apply validate_cursor_y_inside.
  - intros x line Hrow [_ Hx]. by apply (validate_cursor_x_inside self x line).
Qed.

End CursorFacts.

Lemma clamp_of_valid_position_is_noop_witness :
  TextArea.validate_cursor_y unit
    (TextArea.mk unit (Buffer.mk [lit "ab"; lit "cde"]) [] 1 0 (3, 2)) 1 = Ok 1
  /\ TextArea.validate_cursor_x unit
    (TextArea.mk unit (Buffer.mk [lit "ab"; lit "cde"]) [] 1 0 (3, 2)) 3 = Ok 3.
Proof.
  destruct (clamp_of_valid_position_is_noop unit
              (TextArea.mk unit (Buffer.mk [lit "ab"; lit "cde"]) [] 1 0 (3, 2)))
    as [Hy Hx].
  split.
  - apply Hy. unfold Buffer.max_y, py.len. simpl. lia.
  - apply (Hx 3 (lit "cde")); [reflexivity|]. unfold py.len. simpl. lia.
Defined.

(** A change of row does not pass the column through its clamp again:
    from the end of "abc" one row down, onto an empty line, the column
    is still 3. *)
Lemma cursor_down_keeps_column :
  TextArea.action_cursor_down unit
    (TextArea.mk unit (Buffer.mk [lit "abc"; []]) [] 0 3 (3, 2))
  = Ok (TextArea.mk unit (Buffer.mk [lit "abc"; []]) [] 1 3 (3, 2)).
Proof. reflexivity. Qed.

(** C1. [validate_cursor_x] tests [_is_negative(0)], not
    [_is_negative(cursor_x)]: the target column -1 comes back as -1, not
    0, and moving the cursor left from the origin of a new text area
    leaves it at column -1. *)
Theorem validate_cursor_x_keeps_negative_column :
  TextArea.validate_cursor_x unit (TextArea.__init__ unit) (-1) = Ok (-1)
  /\ (self ← TextArea.action_cursor_left unit (TextArea.__init__ unit);
      Ok (TextArea.cursor_offset unit self)) = Ok (-1, 0).
Proof. split; reflexivity. Qed.

(** ** Line counts *)

Lemma insert_chars_length text : forall lines x y lines',
  Buffer.insert_chars lines x y text = Ok lines' -> length lines' = length lines.
Proof.
  induction text as [|char rest IH]; intros lines x y lines'; simpl.
  - by intros [= <-].
  - intros (line & _ & H)%bind_Ok_inv.
    apply bind_Ok_inv in H as (lines1 & Hset & H).
    rewrite (IH _ _ _ _ H). by apply setitem_length in Hset.
Qed.

Lemma insert_linebreak_max_y self position self' :
  Buffer.insert_linebreak self position = Ok self' ->
  Buffer.max_y self' = Buffer.max_y self + 1.
Proof.
  destruct position as [x y]. unfold Buffer.insert_linebreak.
  intros (line & _ & H)%bind_Ok_inv.
  apply bind_Ok_inv in H as (lines1 & Hset & [= <-]).
  unfold Buffer.max_y, py.len. simpl.
  rewrite insert_length. apply setitem_length in Hset. lia.
Qed.

Lemma delete_text_max_y self position self' :
  Buffer.delete_text self position = Ok self' ->
  Buffer.max_y self' = Buffer.max_y self.
Proof.
  destruct position as [x y]. unfold Buffer.delete_text.
  intros (line & _ & H)%bind_Ok_inv.
  apply bind_Ok_inv in H as (line' & _ & H).
  apply bind_Ok_inv in H as (lines1 & Hset & [= <-]).
  unfold Buffer.max_y, py.len. simpl. apply setitem_length in Hset. lia.
Qed.

Lemma insert_text_max_y p self position text self' :
  Buffer.insert_text p self position text = Ok self' ->
  Buffer.max_y self' =
  Buffer.max_y self + (if decide (text = os.linesep p) then 1 else 0).
Proof.
  destruct position as [x y]. unfold Buffer.insert_text.
  destruct (decide (text = os.linesep p)) as [_|_].
  - apply insert_linebreak_max_y.
  - intros (lines & H & [= <-])%bind_Ok_inv.
    apply insert_chars_length in H. unfold Buffer.max_y, py.len. simpl. lia.
Qed.

Lemma apply_max_y_le p o self self' :
  apply p o self = Ok self' -> Buffer.max_y self <= Buffer.max_y self'.
Proof.
  destruct o as [position text|position|position]; simpl.
  - intros ->%insert_text_max_y. destruct (decide _); lia.
  - intros ->%delete_text_max_y. lia.
  - intros ->%insert_linebreak_max_y. lia.
Qed.

Lemma run_max_y_le p ops : forall self self',
  run p ops self = Ok self' -> Buffer.max_y self <= Buffer.max_y self'.
Proof.
  induction ops as [|o rest IH]; intros self self'; simpl.
  - intros [= <-]. lia.
  - intros (self1 & H1%apply_max_y_le & H2%IH)%bind_Ok_inv. lia.
Qed.

(** At a position in range the operation does not raise. *)
Lemma apply_in_range p o self :
  op_in_range self o = true -> exists self', apply p o self = Ok self'.
Proof.
  destruct o as [[x y] text|[x y]|[x y]]; unfold apply, op_in_range.
  - intros (line & Hrow & Hx)%insertion_point_true.
    unfold Buffer.insert_text. destruct (decide (text = os.linesep p)) as [_|Hsep].
    + rewrite (insert_linebreak_in_range _ _ _ _ Hrow Hx). eauto.
    + apply row_Some in Hrow as [[Hy _] Hl].
      rewrite (insert_chars_in_range _ _ _ _ _ Hy Hl Hx), bind_Ok. eauto.
  - intros (line & Hrow & Hx)%deletion_point_true.
    rewrite (delete_text_in_range _ _ _ _ Hrow Hx). eauto.
  - intros (line & Hrow & Hx)%insertion_point_true.
    rewrite (insert_linebreak_in_range _ _ _ _ Hrow Hx). eauto.
Qed.

Lemma run_in_range p ops : forall self,
  ops_in_range p self ops = true -> exists self', run p ops self = Ok self'.
Proof.
  induction ops as [|o rest IH]; intros self; simpl; [eauto|].
  intros [Ho Hrest]%andb_prop.
  destruct (apply_in_range p o self Ho) as [self1 H1].
  unfold after in Hrest. rewrite H1 in Hrest |- *. rewrite bind_Ok. by apply IH.
Qed.

(** The operations before any point of a sequence in range are a
    sequence in range. *)
Lemma ops_in_range_prefix p ops1 ops2 : forall self,
  ops_in_range p self (ops1 ++ ops2) = true -> ops_in_range p self ops1 = true.
Proof.
  induction ops1 as [|o rest IH]; intros self; [done|]. simpl.
  intros [Ho Hrest]%andb_prop. rewrite Ho. simpl. by apply IH.
Qed.

(** C3. Every sequence of [insert_text], [delete_text] and
    [insert_linebreak] at positions in range, run on a new [Buffer], runs
    to its end and leaves a buffer of at least one line; and deleting the
    only character of the only line leaves one empty line. *)
Theorem buffer_keeps_at_least_one_line (p : os.platform) :
  (forall ops,
      ops_in_range p Buffer.__init__ ops = true ->
      exists self, run p ops Buffer.__init__ = Ok self /\ 1 <= Buffer.max_y self)
  /\ (forall c,
      Buffer.delete_text (Buffer.mk [[c]]) (0, 0) = Ok (Buffer.mk [[]])
      /\ Buffer.max_y (Buffer.mk [[]]) = 1).
Proof.
  split.
  - intros ops (self & Hrun)%run_in_range. exists self. split; [done|].
    apply run_max_y_le in Hrun. unfold Buffer.max_y, py.len in *. simpl in Hrun. lia.
  - intros c. split; reflexivity.
Qed.

Lemma buffer_keeps_at_least_one_line_witness :
  ops_in_range os.posix Buffer.__init__
    [InsertText (0, 0) (lit "ab"); InsertLinebreak (1, 0); DeleteText (0, 1);
     DeleteText (0, 0)] = true
  /\ exists self,
      run os.posix
        [InsertText (0, 0) (lit "ab"); InsertLinebreak (1, 0); DeleteText (0, 1);
         DeleteText (0, 0)] Buffer.__init__ = Ok self
      /\ 1 <= Buffer.max_y self.
Proof.
  split; [reflexivity|].
  apply (proj1 (buffer_keeps_at_least_one_line os.posix)). reflexivity.
Defined.

(** C10. At positions in range [insert_text], with a text other than
    the line separator, and [delete_text] leave the number of lines as it
    is, and [insert_linebreak] adds exactly one line; over any sequence of
    operations the number of lines never goes down. *)
Theorem no_operation_removes_lines (p : os.platform) (self : Buffer.t) :
  (forall position text,
      insertion_point self position = true -> text <> os.linesep p ->
      exists self', Buffer.insert_text p self position text = Ok self'
                    /\ Buffer.max_y self' = Buffer.max_y self)
  /\ (forall position,
      deletion_point self position = true ->
      exists self', Buffer.delete_text self position = Ok self'
                    /\ Buffer.max_y self' = Buffer.max_y self)
  /\ (forall position,
      insertion_point self position = true ->
      exists self', Buffer.insert_linebreak self position = Ok self'
                    /\ Buffer.max_y self' = Buffer.max_y self + 1)
  /\ (forall ops self',
      run p ops self = Ok self' -> Buffer.max_y self <= Buffer.max_y self').
Proof.
  split; [|split; [|split]].
  - intros position text Hin Hsep.
    destruct (apply_in_range p (InsertText position text) self Hin) as [self' H].
    exists self'. split; [done|]. simpl in H.
    rewrite (insert_text_max_y _ _ _ _ _ H).
    destruct (decide (text = os.linesep p)); [done|lia].
  - intros position Hin.
    destruct (apply_in_range p (DeleteText position) self Hin) as [self' H].
    exists self'. split; [done|]. by apply delete_text_max_y in H.
  - intros position Hin.
    destruct (apply_in_range p (InsertLinebreak position) self Hin) as [self' H].
    exists self'. split; [done|]. by apply insert_linebreak_max_y in H.
  - intros ops self'. apply run_max_y_le.
Qed.

Lemma no_operation_removes_lines_witness :
  (exists self',
      Buffer.insert_text os.posix (Buffer.mk [lit "ab"; lit "cde"]) (1, 1) (lit "XY")
      = Ok self' /\ Buffer.max_y self' = 2)
  /\ (exists self',
      Buffer.delete_text (Buffer.mk [lit "ab"; lit "cde"]) (2, 1) = Ok self'
      /\ Buffer.max_y self' = 2)
  /\ (exists self',
      Buffer.insert_linebreak (Buffer.mk [lit "ab"; lit "cde"]) (3, 1) = Ok self'
      /\ Buffer.max_y self' = 2 + 1)
  /\ 2 <= Buffer.max_y (Buffer.mk [lit "ab"; lit "c"; lit "e"]).
Proof.
  destruct (no_operation_removes_lines os.posix (Buffer.mk [lit "ab"; lit "cde"]))
    as (Hins & Hdel & Hbrk & Hrun).
  split; [|split; [|split]].
  - apply (Hins (1, 1) (lit "XY")); [reflexivity|discriminate].
  - apply (Hdel (2, 1)). reflexivity.
  - apply (Hbrk (3, 1)). reflexivity.
  - apply (Hrun [InsertLinebreak (1, 1); DeleteText (0, 2)]). reflexivity.
Defined.

(** ** The compound actions of the text area *)

(** Reduce the projections of a text area built with [TextArea.mk]. *)
Ltac proj :=
  cbn [TextArea._buffer TextArea.lines TextArea.cursor_y TextArea.cursor_x
       TextArea.virtual_size].

Lemma max_x_of_lines self :
  Buffer._lines self <> [] -> exists m, Buffer.max_x self = Ok m.
Proof.
  unfold Buffer.max_x. destruct (Buffer._lines self); [done|]. simpl. eauto.
Qed.

(** The rows of a buffer whose row [y] was split in two. *)
Lemma rows_after_linebreak lines y before behind :
  0 <= y < py.len lines ->
  let self' := Buffer.mk (take (Z.to_nat y) lines ++ before :: behind
                          :: drop (S (Z.to_nat y)) lines) in
  row self' y = Some before /\ row self' (y + 1) = Some behind.
Proof.
  intros Hy self'. unfold row, self', py.len in *. simpl.
  destruct (Z.ltb_spec y 0); [lia|]. destruct (Z.ltb_spec (y + 1) 0); [lia|].
  assert (Hk : length (take (Z.to_nat y) lines) = Z.to_nat y)
    by (rewrite length_take; lia).
  split.
  - by apply list_lookup_middle.
  - replace (Z.to_nat (y + 1)) with (S (Z.to_nat y)) by lia.
    rewrite (cons_middle before), app_assoc.
    apply list_lookup_middle. rewrite length_app. simpl. lia.
Qed.

(** C4. With the line "abcdef" at the cursor's row and the cursor at
    column 3, [action_insert_linebreak_at_cursor] (the split of the
    buffer, the cursor one row down, the column set to 0, the lines
    rendered anew, in this order) returns with "abc" at that row, "def" at
    the next and the other rows as they were, the cursor at column 0 of
    the next row, and [lines] rendered from the buffer after the split. *)
Theorem linebreak_at_cursor_splits_abcdef (p : os.platform) (Segment : Type)
    (render_lines : str -> Z -> Z -> list (list Segment))
    (self : TextArea.t Segment) :
  row (TextArea._buffer Segment self) (TextArea.cursor_y Segment self)
    = Some (lit "abcdef") ->
  TextArea.cursor_x Segment self = 3 ->
  exists self' max_x,
    TextArea.action_insert_linebreak_at_cursor p Segment render_lines self = Ok self'
    /\ row (TextArea._buffer Segment self') (TextArea.cursor_y Segment self)
       = Some (lit "abc")
    /\ row (TextArea._buffer Segment self') (TextArea.cursor_y Segment self + 1)
       = Some (lit "def")
    /\ Buffer._lines (TextArea._buffer Segment self')
       = take (Z.to_nat (TextArea.cursor_y Segment self))
           (Buffer._lines (TextArea._buffer Segment self))
         ++ lit "abc" :: lit "def"
         :: drop (S (Z.to_nat (TextArea.cursor_y Segment self)))
              (Buffer._lines (TextArea._buffer Segment self))
    /\ TextArea.cursor_offset Segment self' = (0, TextArea.cursor_y Segment self + 1)
    /\ Buffer.max_x (TextArea._buffer Segment self') = Ok max_x
    /\ TextArea.lines Segment self'
       = render_lines (Buffer.write p (TextArea._buffer Segment self')) max_x
           (Buffer.max_y (TextArea._buffer Segment self')).
Proof.
  destruct self as [b ls cy cx vs]. simpl. intros Hrow ->.
  assert (Hx : 0 <= 3 <= py.len (lit "abcdef")) by (unfold py.len; simpl; lia).
  pose proof (insert_linebreak_in_range b 3 cy _ Hrow Hx) as Hsplit.
  pose proof (insert_linebreak_max_y _ _ _ Hsplit) as Hcount.
  apply row_Some in Hrow as [Hy Hl].
  destruct (rows_after_linebreak (Buffer._lines b) cy (lit "abc") (lit "def") Hy)
    as [Hrow0 Hrow1].
  change (take (Z.to_nat 3) (lit "abcdef")) with (lit "abc") in Hsplit.
  change (drop (Z.to_nat 3) (lit "abcdef")) with (lit "def") in Hsplit.
  set (b' := Buffer.mk _) in *.
  destruct (max_x_of_lines b') as [m Hm].
  { unfold b'. simpl. by destruct (take _ _). }
  exists (TextArea.mk Segment b' (render_lines (Buffer.write p b') m (Buffer.max_y b'))
            (cy + 1) 0 (m, Buffer.max_y b')), m.
  split; [|by repeat split].
  unfold TextArea.action_insert_linebreak_at_cursor, TextArea.cursor_offset,
    TextArea.compute_cursor_offset. proj.
  rewrite Hsplit, bind_Ok.
  unfold TextArea.action_cursor_down, TextArea.set_cursor_y, TextArea.set_buffer. proj.
  rewrite validate_cursor_y_inside by (proj; lia). rewrite !bind_Ok. proj.
  unfold TextArea.set_cursor_x.
  rewrite (validate_cursor_x_inside Segment _ 0 (lit "def"))
    by (done || apply len_nonneg).
  rewrite !bind_Ok. proj.
  unfold TextArea._update_lines, TextArea._make_lines. proj.
  by rewrite Hm, !bind_Ok.
Qed.

Lemma linebreak_at_cursor_splits_abcdef_witness :
  exists self',
    TextArea.action_insert_linebreak_at_cursor os.posix unit (fun _ _ _ => [[tt]])
      (TextArea.mk unit (Buffer.mk [lit "xy"; lit "abcdef"; lit "z"]) [] 1 3 (6, 3))
    = Ok self'
    /\ Buffer._lines (TextArea._buffer unit self')
       = [lit "xy"; lit "abc"; lit "def"; lit "z"]
    /\ TextArea.cursor_offset unit self' = (0, 2).
Proof.
  destruct (linebreak_at_cursor_splits_abcdef os.posix unit (fun _ _ _ => [[tt]])
              (TextArea.mk unit (Buffer.mk [lit "xy"; lit "abcdef"; lit "z"]) [] 1 3 (6, 3))
              eq_refl eq_refl)
    as (self' & m & Hrun & _).
  exists self'. split; [exact Hrun|].
  vm_compute in Hrun. injection Hrun as <-. split; reflexivity.
Defined.

(** C2. On every platform [insert_text] of "XY" at (2, 0) into the
    line "ab" gives the line "abYX", not "abXY": each character is put in
    at the same column, in front of the one put in before it. The cursor
    of [insert_text_at_cursor] does go from column 2 to column 4. *)
Theorem insert_text_XY_lands_reversed (p : os.platform) (Segment : Type)
    (render_lines : str -> Z -> Z -> list (list Segment)) :
  Buffer.insert_text p (Buffer.mk [lit "ab"]) (2, 0) (lit "XY")
    = Ok (Buffer.mk [lit "abYX"])
  /\ lit "abYX" <> lit "abXY"
  /\ TextArea.insert_text_at_cursor p Segment render_lines
       (TextArea.mk Segment (Buffer.mk [lit "ab"]) [] 0 2 (2, 1)) (lit "XY")
     = Ok (TextArea.mk Segment (Buffer.mk [lit "abYX"])
             (render_lines (lit "abYX") 4 1) 0 4 (4, 1)).
Proof.
  split; [|split].
  - by destruct p.
  - discriminate.
  - by destruct p.
Qed.

(** ** Serialization *)

Lemma join_cons sep part parts :
  parts <> [] -> py.join sep (part :: parts) = part ++ sep ++ py.join sep parts.
Proof. by destruct parts. Qed.

Lemma join_chars line : py.join [] (map (fun c => [c]) line) = line.
Proof.
  induction line as [|c [|c' rest] IH]; [done..|].
  change (map _ (c :: c' :: rest))
    with ([c] :: map (fun c : ascii => [c]) (c' :: rest)).
  rewrite join_cons by done. rewrite IH. reflexivity.
Qed.

Lemma write_lines p self :
  Buffer.write p self = py.join (os.linesep p) (Buffer._lines self).
Proof.
  unfold Buffer.write. f_equal.
  rewrite <- (map_id (Buffer._lines self)) at 2.
  apply map_ext. intros line. apply join_chars.
Qed.

Lemma splice_app_l (prefix s t : str) off :
  splice (prefix ++ s) (length prefix + off) t = prefix ++ splice s off t.
Proof.
  unfold splice. rewrite take_app_add, drop_app_add. by rewrite <- app_assoc.
Qed.

Lemma splice_app_r (s suffix t : str) off :
  (off <= length s)%nat -> splice (s ++ suffix) off t = splice s off t ++ suffix.
Proof.
  intros H. unfold splice. rewrite take_app_le, drop_app_le by done.
  by rewrite <- !app_assoc.
Qed.

(** Putting [t] into row [k] at column [x] puts it into the serialization
    at the character offset of that column. *)
Lemma join_splice sep t lines : forall k line x,
  lines !! k = Some line -> (x <= length line)%nat ->
  py.join sep (<[k := take x line ++ t ++ drop x line]> lines) =
  splice (py.join sep lines) (char_offset sep lines k x) t.
Proof.
  induction lines as [|l0 rest IH]; intros k line x Hl Hx; [done|].
  destruct k as [|k]; simpl in Hl.
  - injection Hl as ->. simpl. destruct rest as [|l1 rest]; [done|].
    by rewrite splice_app_r.
  - assert (rest <> []) by (by destruct rest).
    change (<[S k := ?v]> (l0 :: rest)) with (l0 :: <[k := v]> rest).
    rewrite !join_cons; [|done|by destruct rest, k].
    rewrite (IH _ _ _ Hl Hx). simpl.
    rewrite (app_assoc l0 sep (py.join sep rest)), <- length_app.
    by rewrite splice_app_l, <- app_assoc.
Qed.

(** What [insert_text] does to the serialization: the text is in it at the
    offset of the position, its characters in reverse order. *)
Lemma insert_text_write p self x y line text :
  row self y = Some line -> 0 <= x <= py.len line -> text <> os.linesep p ->
  exists self',
    Buffer.insert_text p self (x, y) text = Ok self'
    /\ Buffer.write p self' =
       splice (Buffer.write p self)
         (char_offset (os.linesep p) (Buffer._lines self) (Z.to_nat y) (Z.to_nat x))
         (rev text).
Proof.
  intros Hrow Hx Hsep. eexists. split; [by apply insert_text_in_range|].
  apply row_Some in Hrow as [_ Hl]. rewrite !write_lines. simpl.
  apply join_splice; [done|]. unfold py.len in Hx. lia.
Qed.

(** One [delete_text] at the position for each character put in there
    gives the buffer back. *)
Lemma delete_span_restores t : forall self x y line,
  row self y = Some line -> 0 <= x <= py.len line ->
  delete_span (length t)
    (Buffer.mk (<[Z.to_nat y := take (Z.to_nat x) line ++ t ++ drop (Z.to_nat x) line]>
                  (Buffer._lines self))) (x, y)
  = Ok self.
Proof.
  induction t as [|c t IH]; intros self x y line Hrow Hx;
    cbn [length delete_span app].
  - apply row_Some in Hrow as [_ Hl]. rewrite take_drop, list_insert_id by done.
    by destruct self.
  - pose proof Hrow as [[Hy Hmax] Hl]%row_Some.
    pose proof (lookup_lt_Some _ _ _ Hl) as Hlt.
    assert (Hk : length (take (Z.to_nat x) line) = Z.to_nat x)
      by (rewrite length_take; unfold py.len in Hx; lia).
    rewrite (delete_text_in_range _ x y
               (take (Z.to_nat x) line ++ c :: t ++ drop (Z.to_nat x) line)).
    + rewrite bind_Ok. cbn [Buffer._lines]. rewrite list_insert_insert_eq.
      rewrite take_app_length' by done.
      replace (S (Z.to_nat x)) with (Z.to_nat x + 1)%nat by lia.
      rewrite drop_app_add' by done. simpl. rewrite drop_0.
      by apply IH.
    + unfold row. destruct (Z.ltb_spec y 0); [lia|]. simpl.
      by apply list_lookup_insert_eq.
    + unfold py.len. rewrite length_app. simpl. lia.
Qed.

Lemma insert_then_delete_span p self x y line text :
  row self y = Some line -> 0 <= x <= py.len line -> text <> os.linesep p ->
  (self' ← Buffer.insert_text p self (x, y) text;
   delete_span (length text) self' (x, y)) = Ok self.
Proof.
  intros Hrow Hx Hsep.
  rewrite (insert_text_in_range _ _ _ _ _ _ Hrow Hx Hsep), bind_Ok.
  rewrite <- (length_rev text). by apply delete_span_restores.
Qed.

(** C7. On the lines "ab", "cd" the text "XY" put in at (1, 1) is in
    the serialization as "YX" at the offset of that position, which is
    not the serialization with "XY" spliced in there; the two deletions at
    (1, 1) do restore the buffer and with it the serialization. *)
Theorem insert_then_write_splices_reversed (p : os.platform) :
  exists self',
    Buffer.insert_text p (Buffer.mk [lit "ab"; lit "cd"]) (1, 1) (lit "XY") = Ok self'
    /\ Buffer.write p self' =
       splice (Buffer.write p (Buffer.mk [lit "ab"; lit "cd"]))
         (char_offset (os.linesep p) [lit "ab"; lit "cd"] 1 1) (lit "YX")
    /\ Buffer.write p self' <>
       splice (Buffer.write p (Buffer.mk [lit "ab"; lit "cd"]))
         (char_offset (os.linesep p) [lit "ab"; lit "cd"] 1 1) (lit "XY")
    /\ delete_span 2 self' (1, 1) = Ok (Buffer.mk [lit "ab"; lit "cd"]).
Proof.
  exists (Buffer.mk [lit "ab"; lit "cYXd"]).
  destruct p; (split; [reflexivity|split; [reflexivity|split; [discriminate|reflexivity]]]).
Qed.

(** ** A separator inside an inserted text *)

Lemma startswith_nil s : py.startswith s [] = true.
Proof. by destruct s. Qed.

(** Splitting at a separator of one character gives one piece more than
    the string has occurrences of the character. *)
Lemma split_go_single c s : forall cur,
  length (py.split_go [c] 0 cur s) = S (count_occ ascii_dec s c).
Proof.
  induction s as [|a s IH]; intros cur; [done|].
  cbn [py.split_go py.startswith length Nat.pred].
  destruct (Ascii.eqb_spec c a) as [->|Hne].
  - rewrite count_occ_cons_eq, startswith_nil by done.
    cbn [andb length]. f_equal. apply IH.
  - rewrite count_occ_cons_neq by done. cbn [andb]. apply IH.
Qed.

Lemma contains_single c s : py.contains [c] s = true -> In c s.
Proof.
  induction s as [|a s IH]; [done|].
  cbn [py.contains py.startswith].
  destruct (Ascii.eqb_spec c a) as [->|_]; [by left|].
  cbn [andb orb]. intros H. right. by apply IH.
Qed.

Lemma count_join_ge c lines :
  (length lines - 1 <= count_occ ascii_dec (py.join [c] lines) c)%nat.
Proof.
  induction lines as [|l0 [|l1 rest] IH]; [simpl; lia..|].
  rewrite join_cons by done. rewrite !count_occ_app.
  change (count_occ ascii_dec [c] c) with
    (if ascii_dec c c then 1%nat else 0%nat).
  destruct (ascii_dec c c); [|done]. simpl in *. lia.
Qed.

Lemma count_join_row c lines : forall k line,
  lines !! k = Some line ->
  (length lines - 1 + count_occ ascii_dec line c
   <= count_occ ascii_dec (py.join [c] lines) c)%nat.
Proof.
  induction lines as [|l0 rest IH]; intros k line Hl; [done|].
  destruct rest as [|l1 rest].
  - destruct k; [|done]. injection Hl as ->. simpl. lia.
  - rewrite join_cons by done. rewrite !count_occ_app.
    change (count_occ ascii_dec [c] c) with
      (if ascii_dec c c then 1%nat else 0%nat).
    destruct (ascii_dec c c); [|done].
    destruct k as [|k]; simpl in Hl.
    + injection Hl as ->. pose proof (count_join_ge c (l1 :: rest)). simpl in *. lia.
    + pose proof (IH _ _ Hl). simpl in *. lia.
Qed.

(** What holds of such a text on either platform: a text that contains
    the line separator and is not the separator itself goes, every
    character of it, into the one line at the given row, between the
    characters before the column and those from the column on; the other
    rows and the number of lines stay as they are; and where the
    separator is the single character LF (posix), whose place in the
    text the order of the characters cannot change, the serialization
    splits at the separator into more lines than the buffer has. *)
Theorem embedded_separator_stays_in_row (p : os.platform) (self : Buffer.t)
    (x y : Z) (line : list ascii) (text : str) :
  row self y = Some line -> 0 <= x <= py.len line ->
  py.contains (os.linesep p) text = true -> text <> os.linesep p ->
  exists self' inserted,
    Buffer.insert_text p self (x, y) text = Ok self'
    /\ row self' y = Some (take (Z.to_nat x) line ++ inserted ++ drop (Z.to_nat x) line)
    /\ inserted ≡ₚ text
    /\ (forall y', y' <> y -> row self' y' = row self y')
    /\ Buffer.max_y self' = Buffer.max_y self
    /\ (p = os.posix -> Buffer.max_y self' < split_line_count p self').
Proof.
  intros Hrow Hx Hin Hsep.
  pose proof (insert_text_in_range p self x y line text Hrow Hx Hsep) as Hrun.
  pose proof (insert_text_max_y _ _ _ _ _ Hrun) as Hcount.
  destruct (decide (text = os.linesep p)); [done|]. rewrite Z.add_0_r in Hcount.
  apply row_Some in Hrow as [[Hy Hmax] Hl].
  pose proof (lookup_lt_Some _ _ _ Hl) as Hlt.
  set (line' := take (Z.to_nat x) line ++ rev text ++ drop (Z.to_nat x) line) in *.
  set (self' := Buffer.mk _) in *.
  assert (Hl' : Buffer._lines self' !! Z.to_nat y = Some line')
    by (by apply list_lookup_insert_eq).
  exists self', (rev text). repeat split.
  - done.
  - unfold row. destruct (Z.ltb_spec y 0); [lia|done].
  - symmetry. apply Permutation_rev.
  - intros y' Hne. unfold row. destruct (Z.ltb_spec y' 0); [done|].
    apply list_lookup_insert_ne. lia.
  - done.
  - intros ->. unfold split_line_count, py.split, py.len.
    rewrite write_lines. change (os.linesep os.posix) with [os.LF].
    rewrite split_go_single.
    pose proof (count_join_row os.LF _ _ _ Hl') as Hge.
    assert (Hone : (0 < count_occ ascii_dec line' os.LF)%nat).
    { apply count_occ_In. unfold line'. rewrite !in_app_iff. right. left.
      apply in_rev. rewrite rev_involutive. by apply contains_single. }
    unfold Buffer.max_y, py.len in *. lia.
Qed.

Lemma embedded_separator_stays_in_row_witness :
  exists self',
    Buffer.insert_text os.posix (Buffer.mk [lit "ab"; lit "cd"]) (1, 0)
      (os.LF :: lit "X") = Ok self'
    /\ row self' 0 = Some ("a"%char :: "X"%char :: os.LF :: lit "b")
    /\ Buffer.max_y self' = 2
    /\ Buffer.max_y self' < split_line_count os.posix self'.
Proof.
  destruct (embedded_separator_stays_in_row os.posix (Buffer.mk [lit "ab"; lit "cd"])
              1 0 (lit "ab") (os.LF :: lit "X") eq_refl)
    as (self' & inserted & Hrun & Hrow & _ & _ & Hcount & Hsplit).
  - unfold py.len. simpl. lia.
  - reflexivity.
  - discriminate.
  - exists self'. split; [exact Hrun|].
    specialize (Hsplit eq_refl).
    vm_compute in Hrun. injection Hrun as <-.
    split; [reflexivity|]. split; [reflexivity|]. exact Hsplit.
Defined.

(** C9. Where the separator has two characters (nt) the text CR, LF,
    "X", which contains the separator and is not the separator, put into
    the new buffer at (0, 0) makes the one line "X", LF, CR: each character
    lands in front of the one before it, so the line holds no separator,
    the serialization splits into one piece, and one piece does not
    exceed the one line of the buffer, where the claim has the count of
    pieces exceed the count of lines. Had the text landed in its own
    order the serialization would split into two pieces. *)
Lemma embedded_separator_counterexample :
  py.contains (os.linesep os.nt) (os.CR :: os.LF :: lit "X") = true
  /\ os.CR :: os.LF :: lit "X" <> os.linesep os.nt
  /\ insertion_point Buffer.__init__ (0, 0) = true
  /\ Buffer.insert_text os.nt Buffer.__init__ (0, 0) (os.CR :: os.LF :: lit "X")
     = Ok (Buffer.mk ["X"%char :: os.LF :: [os.CR]])
  /\ py.split (os.linesep os.nt)
       (Buffer.write os.nt (Buffer.mk ["X"%char :: os.LF :: [os.CR]]))
     = ["X"%char :: os.LF :: [os.CR]]
  /\ ~ (Buffer.max_y (Buffer.mk ["X"%char :: os.LF :: [os.CR]])
        < split_line_count os.nt (Buffer.mk ["X"%char :: os.LF :: [os.CR]]))
  /\ split_line_count os.nt (Buffer.mk [os.CR :: os.LF :: lit "X"]) = 2.
Proof.
  split; [reflexivity|]. split; [discriminate|]. repeat (split; [reflexivity|]).
  split; [|reflexivity].
  vm_compute. intros H. discriminate H.
Qed.

(** * Further properties of the buffer *)

(** ** Line lengths *)

(** X1. [get_line_length] never raises: it returns the length of the
    line for a row of the buffer, the length of the line counted from the
    end for a negative row down to [- max_y], and [None] for every other
    row. *)
Theorem get_line_length_total (self : Buffer.t) (y : Z) :
  (exists r, Buffer.get_line_length self y = Ok r)
  /\ (forall line, row self y = Some line ->
      Buffer.get_line_length self y = Ok (Some (py.len line)))
  /\ (forall line, y < 0 -> row self (y + Buffer.max_y self) = Some line ->
      Buffer.get_line_length self y = Ok (Some (py.len line)))
  /\ (Buffer.max_y self <= y \/ y < - Buffer.max_y self ->
      Buffer.get_line_length self y = Ok None).
Proof.
  split; [apply get_line_length_never_raises|]. split; [|split].
  - apply get_line_length_row.
  - intros line Hy Hrow. pose proof Hrow as [[H0 H1] _]%row_Some.
    rewrite get_line_length_from_end by lia. by apply get_line_length_row.
  - apply get_line_length_beyond.
Qed.

Lemma get_line_length_total_witness :
  Buffer.get_line_length (Buffer.mk [lit "ab"; lit "cde"]) 1 = Ok (Some 3)
  /\ Buffer.get_line_length (Buffer.mk [lit "ab"; lit "cde"]) (-2) = Ok (Some 2)
  /\ Buffer.get_line_length (Buffer.mk [lit "ab"; lit "cde"]) 2 = Ok None.
Proof.
  split; [|split].
  - apply (proj1 (proj2 (get_line_length_total (Buffer.mk [lit "ab"; lit "cde"]) 1))
             (lit "cde")).
    reflexivity.
  - apply (proj1 (proj2 (proj2 (get_line_length_total
                                  (Buffer.mk [lit "ab"; lit "cde"]) (-2))))
             (lit "ab")); [lia|reflexivity].
  - apply (proj2 (proj2 (proj2 (get_line_length_total
                                  (Buffer.mk [lit "ab"; lit "cde"]) 2)))).
    left. unfold Buffer.max_y, py.len. simpl. lia.
Defined.

(** ** The longest line *)

Lemma foldl_max_ge rest : forall x,
  x <= foldl Z.max x rest /\ Forall (fun z => z <= foldl Z.max x rest) rest.
Proof.
  induction rest as [|z rest IH]; intros x; simpl; [split; [lia|constructor]|].
  destruct (IH (Z.max x z)) as [H1 H2]. split; [lia|].
  constructor; [lia|done].
Qed.

Lemma foldl_max_elem rest : forall x, foldl Z.max x rest ∈ x :: rest.
Proof.
  induction rest as [|z rest IH]; intros x; simpl; [by left|].
  specialize (IH (Z.max x z)). apply elem_of_cons in IH as [->|IH].
  - destruct (Z.max_spec x z) as [[_ ->]|[_ ->]]; [right; by left|by left].
  - right. by right.
Qed.

Lemma max_x_of_some_lines (self : Buffer.t) :
  Buffer._lines self <> [] ->
  exists m,
    Buffer.max_x self = Ok m
    /\ Forall (fun line => py.len line <= m) (Buffer._lines self)
    /\ exists line, line ∈ Buffer._lines self /\ py.len line = m.
Proof.
  unfold Buffer.max_x.
  intros Hne. destruct (Buffer._lines self) as [|l0 rest]; [done|].
  cbn [map py.max]. eexists. split; [reflexivity|].
  destruct (foldl_max_ge (map py.len rest) (py.len l0)) as [H0 Hrest].
  split.
  - constructor; [done|].
    exact (proj1 (Forall_map py.len
                    (fun z => z <= foldl Z.max (py.len l0) (map py.len rest)) rest)
             Hrest).
  - pose proof (foldl_max_elem (map py.len rest) (py.len l0)) as Hin.
    change (py.len l0 :: map py.len rest) with (map py.len (l0 :: rest)) in Hin.
    apply list_elem_of_fmap in Hin as (line & Heq & Hin). eauto.
Qed.

(** X2. [max_x] raises [ValueError] on a buffer without lines; on any
    other buffer it returns a length that some line has and no line
    exceeds. *)
Theorem max_x_is_longest_line (self : Buffer.t) :
  (Buffer._lines self = [] -> Buffer.max_x self = Raise ValueError)
  /\ (Buffer._lines self <> [] ->
      exists m,
        Buffer.max_x self = Ok m
        /\ Forall (fun line => py.len line <= m) (Buffer._lines self)
        /\ exists line, line ∈ Buffer._lines self /\ py.len line = m).
Proof.
  split.
  - unfold Buffer.max_x. by intros ->.
  - apply max_x_of_some_lines.
Qed.

Lemma max_x_is_longest_line_witness :
  Buffer.max_x (Buffer.mk []) = Raise ValueError
  /\ exists m,
      Buffer.max_x (Buffer.mk [lit "ab"; lit "cdef"; lit "g"]) = Ok m
      /\ Forall (fun line => py.len line <= m) [lit "ab"; lit "cdef"; lit "g"].
Proof.
  split.
  - apply (proj1 (max_x_is_longest_line (Buffer.mk []))). reflexivity.
  - destruct (proj2 (max_x_is_longest_line (Buffer.mk [lit "ab"; lit "cdef"; lit "g"])))
      as (m & Hm & Hall & _); [discriminate|].
    exists m. split; [exact Hm|exact Hall].
Defined.

Lemma max_x_bounds_row self y line m :
  row self y = Some line -> Buffer.max_x self = Ok m -> py.len line <= m.
Proof.
  intros [_ Hl]%row_Some Hm.
  destruct (max_x_of_some_lines self) as (m' & Hm' & Hall & _).
  { intros Hnil. by rewrite Hnil in Hl. }
  rewrite Hm in Hm'. injection Hm' as <-.
  rewrite Forall_lookup in Hall. by apply (Hall _ _ Hl).
Qed.

(** ** What the operations do to the rows *)

Lemma row_insert_eq self y line line' :
  row self y = Some line ->
  row (Buffer.mk (<[Z.to_nat y := line']> (Buffer._lines self))) y = Some line'.
Proof.
  intros [[Hy _] Hl%lookup_lt_Some]%row_Some. unfold row.
  destruct (Z.ltb_spec y 0); [lia|]. by apply list_lookup_insert_eq.
Qed.

Lemma row_insert_ne self y y' line' :
  0 <= y -> y' <> y ->
  row (Buffer.mk (<[Z.to_nat y := line']> (Buffer._lines self))) y' = row self y'.
Proof.
  intros Hy Hne. unfold row. destruct (Z.ltb_spec y' 0); [done|].
  apply list_lookup_insert_ne. lia.
Qed.

(** X3. [insert_text] of a text other than the separator, at a position
    in range, returns; the row then reads: the characters before the
    column, the characters of the text last to first, the characters from
    the column on; every other row is as it was. *)
Theorem insert_text_row (p : os.platform) (self : Buffer.t) (x y : Z)
    (line : list ascii) (text : str) :
  row self y = Some line -> 0 <= x <= py.len line -> text <> os.linesep p ->
  exists self',
    Buffer.insert_text p self (x, y) text = Ok self'
    /\ row self' y = Some (take (Z.to_nat x) line ++ rev text ++ drop (Z.to_nat x) line)
    /\ (forall y', y' <> y -> row self' y' = row self y').
Proof.
  intros Hrow Hx Hsep. eexists. split; [by apply insert_text_in_range|].
  pose proof Hrow as [[Hy _] _]%row_Some.
  split; [by eapply row_insert_eq|]. intros y' Hne. by apply row_insert_ne.
Qed.

Lemma insert_text_row_witness :
  exists self',
    Buffer.insert_text os.nt (Buffer.mk [lit "ab"; lit "cd"]) (1, 1) (lit "XYZ") = Ok self'
    /\ row self' 1 = Some (lit "cZYXd")
    /\ row self' 0 = Some (lit "ab").
Proof.
  destruct (insert_text_row os.nt (Buffer.mk [lit "ab"; lit "cd"]) 1 1 (lit "cd")
              (lit "XYZ") eq_refl)
    as (self' & Hrun & Hrow & Hother).
  - unfold py.len. simpl. lia.
  - discriminate.
  - exists self'. split; [exact Hrun|]. split; [exact Hrow|].
    rewrite (Hother 0) by lia. reflexivity.
Defined.

(** X4. [insert_linebreak] at a position in range returns; the row is
    replaced by two rows, the characters before the column and the
    characters from the column on, and the rows before and behind it keep
    their order. *)
Theorem insert_linebreak_rows (self : Buffer.t) (x y : Z) (line : list ascii) :
  row self y = Some line -> 0 <= x <= py.len line ->
  exists self',
    Buffer.insert_linebreak self (x, y) = Ok self'
    /\ Buffer._lines self'
       = take (Z.to_nat y) (Buffer._lines self)
         ++ take (Z.to_nat x) line :: drop (Z.to_nat x) line
         :: drop (S (Z.to_nat y)) (Buffer._lines self)
    /\ row self' y = Some (take (Z.to_nat x) line)
    /\ row self' (y + 1) = Some (drop (Z.to_nat x) line).
Proof.
  intros Hrow Hx. eexists. split; [by apply insert_linebreak_in_range|].
  split; [done|]. apply row_Some in Hrow as [Hy _].
  by apply rows_after_linebreak.
Qed.

Lemma insert_linebreak_rows_witness :
  exists self',
    Buffer.insert_linebreak (Buffer.mk [lit "xy"; lit "hello"; lit "z"]) (2, 1) = Ok self'
    /\ Buffer._lines self' = [lit "xy"; lit "he"; lit "llo"; lit "z"].
Proof.
  destruct (insert_linebreak_rows (Buffer.mk [lit "xy"; lit "hello"; lit "z"]) 2 1
              (lit "hello") eq_refl)
    as (self' & Hrun & Hlines & _).
  - unfold py.len. simpl. lia.
  - exists self'. split; [exact Hrun|exact Hlines].
Defined.

(** X5. [delete_text] at a position in range returns; the row loses the
    character at the column and nothing else, and every other row is as
    it was. *)
Theorem delete_text_row (self : Buffer.t) (x y : Z) (line : list ascii) :
  row self y = Some line -> 0 <= x < py.len line ->
  exists self',
    Buffer.delete_text self (x, y) = Ok self'
    /\ row self' y = Some (take (Z.to_nat x) line ++ drop (S (Z.to_nat x)) line)
    /\ (forall y', y' <> y -> row self' y' = row self y')
    /\ Buffer.max_y self' = Buffer.max_y self.
Proof.
  intros Hrow Hx. eexists. split; [by apply delete_text_in_range|].
  pose proof Hrow as [[Hy _] _]%row_Some.
  split; [by eapply row_insert_eq|].
  split; [intros y' Hne; by apply row_insert_ne|].
  unfold Buffer.max_y, py.len. simpl. by rewrite length_insert.
Qed.

Lemma delete_text_row_witness :
  exists self',
    Buffer.delete_text (Buffer.mk [lit "ab"; lit "cde"]) (1, 1) = Ok self'
    /\ row self' 1 = Some (lit "ce")
    /\ row self' 0 = Some (lit "ab").
Proof.
  destruct (delete_text_row (Buffer.mk [lit "ab"; lit "cde"]) 1 1 (lit "cde") eq_refl)
    as (self' & Hrun & Hrow & Hother & _).
  - unfold py.len. simpl. lia.
  - exists self'. split; [exact Hrun|]. split; [exact Hrow|].
    rewrite (Hother 0) by lia. reflexivity.
Defined.

(** X6. A text other than the separator put in at a position in range
    and then deleted, by one [delete_text] at that position for each of
    its characters, leaves the buffer it was put into. *)
Theorem insert_then_delete_restores (p : os.platform) (self : Buffer.t) (x y : Z)
    (line : list ascii) (text : str) :
  row self y = Some line -> 0 <= x <= py.len line -> text <> os.linesep p ->
  exists self',
    Buffer.insert_text p self (x, y) text = Ok self'
    /\ delete_span (length text) self' (x, y) = Ok self.
Proof.
  intros Hrow Hx Hsep. eexists. split; [by apply insert_text_in_range|].
  rewrite <- (length_rev text). by apply delete_span_restores.
Qed.

Lemma insert_then_delete_restores_witness :
  exists self',
    Buffer.insert_text os.posix (Buffer.mk [lit "ab"; lit "cd"]) (2, 0) (lit "XYZ")
    = Ok self'
    /\ delete_span 3 self' (2, 0) = Ok (Buffer.mk [lit "ab"; lit "cd"]).
Proof.
  apply (insert_then_delete_restores os.posix (Buffer.mk [lit "ab"; lit "cd"]) 2 0
           (lit "ab") (lit "XYZ") eq_refl).
  - unfold py.len. simpl. lia.
  - discriminate.
Defined.

(** ** Positions out of range *)

Lemma getitem_beyond {A : Type} (l : list A) (i : Z) :
  py.len l <= i \/ i < - py.len l -> py.getitem l i = Raise IndexError.
Proof.
  intros H. unfold py.getitem.
  by rewrite norm_index_None by (apply len_nonneg || exact H).
Qed.

Lemma delitem_beyond {A : Type} (l : list A) (i : Z) :
  py.len l <= i \/ i < - py.len l -> py.delitem l i = Raise IndexError.
Proof.
  intros H. unfold py.delitem.
  by rewrite norm_index_None by (apply len_nonneg || exact H).
Qed.

Lemma getitem_valid {A : Type} (l : list A) (i : Z) :
  0 <= i < py.len l ->
  exists a, l !! Z.to_nat i = Some a /\ py.getitem l i = Ok a.
Proof.
  intros H. destruct (lookup_lt_is_Some_2 l (Z.to_nat i)) as [a Ha].
  { unfold py.len in H. lia. }
  exists a. split; [done|]. apply getitem_in_range; [lia|done].
Qed.

Lemma linesep_nonempty p : os.linesep p <> [].
Proof. by destruct p. Qed.

(** X7. With a row that the buffer does not have, that is [max_y] or
    more, or less than [- max_y], [insert_linebreak], [delete_text] and
    [insert_text] of the separator or of any other non-empty text raise
    [IndexError]; [insert_text] of the empty text returns the buffer as
    it is. *)
Theorem operations_on_missing_row (p : os.platform) (self : Buffer.t) (x y : Z) :
  Buffer.max_y self <= y \/ y < - Buffer.max_y self ->
  Buffer.insert_linebreak self (x, y) = Raise IndexError
  /\ Buffer.delete_text self (x, y) = Raise IndexError
  /\ Buffer.insert_text p self (x, y) (os.linesep p) = Raise IndexError
  /\ (forall text, text <> [] -> text <> os.linesep p ->
      Buffer.insert_text p self (x, y) text = Raise IndexError)
  /\ Buffer.insert_text p self (x, y) [] = Ok self.
Proof.
  intros Hy. unfold Buffer.max_y in Hy.
  assert (Hbrk : Buffer.insert_linebreak self (x, y) = Raise IndexError).
  { unfold Buffer.insert_linebreak. by rewrite getitem_beyond. }
  split; [done|]. split; [|split; [|split]].
  - unfold Buffer.delete_text. by rewrite getitem_beyond.
  - unfold Buffer.insert_text. by destruct (decide _).
  - intros text Hne Hsep. unfold Buffer.insert_text.
    destruct (decide _); [done|]. destruct text as [|c rest]; [done|].
    cbn [Buffer.insert_chars]. by rewrite getitem_beyond.
  - unfold Buffer.insert_text.
    destruct (decide _) as [Heq|_]; [by destruct p|]. by destruct self.
Qed.

Lemma operations_on_missing_row_witness :
  Buffer.insert_linebreak (Buffer.mk [lit "ab"]) (0, 1) = Raise IndexError
  /\ Buffer.delete_text (Buffer.mk [lit "ab"]) (0, 1) = Raise IndexError
  /\ Buffer.insert_text os.posix (Buffer.mk [lit "ab"]) (0, 1) (lit "X")
     = Raise IndexError
  /\ Buffer.insert_text os.posix (Buffer.mk [lit "ab"]) (0, 1) []
     = Ok (Buffer.mk [lit "ab"]).
Proof.
  destruct (operations_on_missing_row os.posix (Buffer.mk [lit "ab"]) 0 1)
    as (Hbrk & Hdel & _ & Hins & Hnil).
  - left. unfold Buffer.max_y, py.len. simpl. lia.
  - split; [exact Hbrk|]. split; [exact Hdel|]. split; [|exact Hnil].
    apply Hins; discriminate.
Defined.

(** X8. [delete_text] on a row of the buffer with a column where the
    line has no character, that is [len(line)] or more, or less than
    [- len(line)], raises [IndexError]; on an empty line every column
    does. *)
Theorem delete_text_missing_column (self : Buffer.t) (x y : Z) (line : list ascii) :
  row self y = Some line ->
  py.len line <= x \/ x < - py.len line ->
  Buffer.delete_text self (x, y) = Raise IndexError.
Proof.
  intros [[Hy _] Hl]%row_Some Hx. unfold Buffer.delete_text.
  rewrite (getitem_in_range _ _ _ Hy Hl), bind_Ok. by rewrite delitem_beyond.
Qed.

Lemma delete_text_missing_column_witness :
  Buffer.delete_text Buffer.__init__ (0, 0) = Raise IndexError
  /\ Buffer.delete_text (Buffer.mk [lit "ab"]) (2, 0) = Raise IndexError.
Proof.
  split.
  - apply (delete_text_missing_column Buffer.__init__ 0 0 []); [reflexivity|].
    left. unfold py.len. simpl. lia.
  - apply (delete_text_missing_column (Buffer.mk [lit "ab"]) 2 0 (lit "ab"));
      [reflexivity|].
    left. unfold py.len. simpl. lia.
Defined.

Lemma insert_chars_valid_row text : forall lines x y line,
  0 <= y -> lines !! Z.to_nat y = Some line ->
  exists line',
    Buffer.insert_chars lines x y text = Ok (<[Z.to_nat y := line']> lines)
    /\ length line' = (length line + length text)%nat.
Proof.
  induction text as [|c rest IH]; intros lines x y line Hy Hl.
  - exists line. simpl. rewrite list_insert_id by done. split; [done|lia].
  - cbn [Buffer.insert_chars].
    rewrite (getitem_in_range _ _ _ Hy Hl), bind_Ok.
    rewrite (setitem_in_range _ _ _ _ Hy Hl), bind_Ok.
    pose proof (lookup_lt_Some _ _ _ Hl) as Hlt.
    destruct (IH (<[Z.to_nat y := py.insert line x c]> lines) x y (py.insert line x c) Hy)
      as (line' & Hrun & Hlen).
    { by apply list_lookup_insert_eq. }
    exists line'. rewrite Hrun, list_insert_insert_eq. split; [done|].
    rewrite Hlen, insert_length. simpl. lia.
Qed.

Lemma insert_text_any_column (p : os.platform) (self : Buffer.t) (x y : Z)
    (line : list ascii) (text : str) :
  row self y = Some line -> text <> os.linesep p ->
  exists self' line',
    Buffer.insert_text p self (x, y) text = Ok self'
    /\ row self' y = Some line'
    /\ py.len line' = py.len line + py.len text
    /\ Buffer.max_y self' = Buffer.max_y self.
Proof.
  intros Hrow Hsep. pose proof Hrow as [[Hy Hmax] Hl]%row_Some.
  unfold Buffer.insert_text. destruct (decide _); [done|].
  destruct (insert_chars_valid_row text _ x y line Hy Hl) as (line' & Hrun & Hlen).
  rewrite Hrun, bind_Ok. eexists _, line'. split; [done|].
  split; [by eapply row_insert_eq|].
  split; [unfold py.len; lia|].
  unfold Buffer.max_y, py.len. simpl. by rewrite length_insert.
Qed.

Lemma insert_linebreak_any_column (self : Buffer.t) (x y : Z) (line : list ascii) :
  row self y = Some line ->
  exists self',
    Buffer.insert_linebreak self (x, y) = Ok self'
    /\ Buffer.max_y self' = Buffer.max_y self + 1.
Proof.
  intros [[Hy Hmax] Hl]%row_Some.
  assert (exists self', Buffer.insert_linebreak self (x, y) = Ok self')
    as [self' Hrun].
  { unfold Buffer.insert_linebreak.
    rewrite (getitem_in_range _ _ _ Hy Hl), bind_Ok.
    rewrite (setitem_in_range _ _ _ _ Hy Hl), bind_Ok. eauto. }
  exists self'. split; [done|]. by apply insert_linebreak_max_y in Hrun.
Qed.

(** X9. On a row of the buffer [insert_text] returns for every column
    that fits an index of the machine, negative or beyond the end of the
    line alike: with a text other than the separator it makes the row
    longer by the length of the text and keeps the number of lines.
    [insert_linebreak], which only slices at the column, returns for
    every column and adds one line. *)
Theorem insertion_accepts_every_column (p : os.platform) (self : Buffer.t) (x y : Z)
    (line : list ascii) :
  row self y = Some line ->
  (forall text, fits_index x -> text <> os.linesep p ->
     exists self' line',
       Buffer.insert_text p self (x, y) text = Ok self'
       /\ row self' y = Some line'
       /\ py.len line' = py.len line + py.len text
       /\ Buffer.max_y self' = Buffer.max_y self)
  /\ (exists self',
       Buffer.insert_linebreak self (x, y) = Ok self'
       /\ Buffer.max_y self' = Buffer.max_y self + 1).
Proof.
  intros Hrow. split.
  - intros text _ Hsep. by apply insert_text_any_column.
  - by apply (insert_linebreak_any_column self x y line).
Qed.

Lemma insertion_accepts_every_column_witness :
  (exists self' line',
      Buffer.insert_text os.posix (Buffer.mk [lit "ab"]) (-7, 0) (lit "XY") = Ok self'
      /\ row self' 0 = Some line'
      /\ py.len line' = 2 + 2
      /\ Buffer.max_y self' = 1)
  /\ (exists self',
      Buffer.insert_linebreak (Buffer.mk [lit "ab"]) (9, 0) = Ok self'
      /\ Buffer.max_y self' = 1 + 1).
Proof.
  split.
  - apply (proj1 (insertion_accepts_every_column os.posix (Buffer.mk [lit "ab"]) (-7) 0
                    (lit "ab") eq_refl) (lit "XY")).
    + unfold fits_index. lia.
    + discriminate.
  - apply (proj2 (insertion_accepts_every_column os.posix (Buffer.mk [lit "ab"]) 9 0
                    (lit "ab") eq_refl)).
Defined.

Lemma insert_chars_beyond text : forall lines x y line,
  0 <= y -> lines !! Z.to_nat y = Some line ->
  py.len line + py.len text <= x + 1 ->
  Buffer.insert_chars lines x y text = Ok (<[Z.to_nat y := line ++ text]> lines).
Proof.
  induction text as [|c rest IH]; intros lines x y line Hy Hl Hx.
  - simpl. rewrite app_nil_r. by rewrite list_insert_id.
  - cbn [Buffer.insert_chars].
    rewrite (getitem_in_range _ _ _ Hy Hl), bind_Ok.
    rewrite (setitem_in_range _ _ _ _ Hy Hl), bind_Ok.
    pose proof (lookup_lt_Some _ _ _ Hl) as Hlt.
    assert (Happ : py.insert line x c = line ++ [c]).
    { unfold py.insert, py.clamp_index, py.len in *. simpl in Hx.
      destruct (Z.ltb_spec x 0); [lia|].
      replace (Z.to_nat (Z.min x (Z.of_nat (length line)))) with (length line) by lia.
      by rewrite take_ge, drop_ge by lia. }
    rewrite Happ.
    rewrite (IH _ x y (line ++ [c])).
    + by rewrite list_insert_insert_eq, <- app_assoc.
    + done.
    + by apply list_lookup_insert_eq.
    + unfold py.len in *. rewrite length_app. simpl in *. lia.
Qed.

(** X10. [insert_text] of a text other than the separator with a
    column that fits an index of the machine and is so far beyond the end
    of the line that [len(line) + len(text)] is at most the column plus
    one puts the text behind the line, first character first. *)
Theorem insert_text_beyond_line_end (p : os.platform) (self : Buffer.t) (x y : Z)
    (line : list ascii) (text : str) :
  row self y = Some line -> fits_index x -> py.len line + py.len text <= x + 1 ->
  text <> os.linesep p ->
  exists self',
    Buffer.insert_text p self (x, y) text = Ok self'
    /\ row self' y = Some (line ++ text).
Proof.
  intros Hrow _ Hx Hsep. pose proof Hrow as [[Hy _] Hl]%row_Some.
  unfold Buffer.insert_text. destruct (decide _); [done|].
  rewrite (insert_chars_beyond _ _ _ _ _ Hy Hl Hx), bind_Ok.
  eexists. split; [done|]. by eapply row_insert_eq.
Qed.

Lemma insert_text_beyond_line_end_witness :
  exists self',
    Buffer.insert_text os.posix (Buffer.mk [lit "ab"]) (4, 0) (lit "XYZ") = Ok self'
    /\ row self' 0 = Some (lit "abXYZ").
Proof.
  apply (insert_text_beyond_line_end os.posix (Buffer.mk [lit "ab"]) 4 0 (lit "ab")
           (lit "XYZ") eq_refl).
  - unfold fits_index. lia.
  - unfold py.len. simpl. lia.
  - discriminate.
Defined.

(** ** What the operations do to the serialization *)

Lemma join_linebreak sep lines : forall k line x,
  lines !! k = Some line -> (x <= length line)%nat ->
  py.join sep (take k lines ++ take x line :: drop x line :: drop (S k) lines) =
  splice (py.join sep lines) (char_offset sep lines k x) sep.
Proof.
  induction lines as [|l0 rest IH]; intros k line x Hl Hx; [done|].
  destruct k as [|k]; simpl in Hl.
  - injection Hl as ->. cbn [take drop app char_offset].
    rewrite drop_0, join_cons by done.
    destruct rest as [|l1 rest].
    + by cbn [py.join].
    + rewrite (join_cons sep (drop x line)), (join_cons sep line) by done.
      rewrite splice_app_r by done.
      unfold splice. by rewrite <- !app_assoc.
  - assert (rest <> []) by (by destruct rest).
    cbn [take drop app char_offset].
    rewrite !join_cons; [|done|by destruct (take k rest)].
    rewrite (IH _ _ _ Hl Hx).
    rewrite (app_assoc l0 sep (py.join sep rest)), <- length_app.
    by rewrite splice_app_l, <- app_assoc.
Qed.

Lemma char_offset_insert sep lines : forall k x line',
  char_offset sep (<[k := line']> lines) k x = char_offset sep lines k x.
Proof.
  induction lines as [|l0 rest IH]; intros [|k] x line'; try done.
  cbn [char_offset]. change (<[S k := line']> (l0 :: rest)) with (l0 :: <[k := line']> rest).
  cbn [char_offset]. by rewrite IH.
Qed.

Lemma insert_text_of_separator (p : os.platform) (self : Buffer.t) position :
  Buffer.insert_text p self position (os.linesep p)
  = Buffer.insert_linebreak self position.
Proof.
  destruct position as [x y]. unfold Buffer.insert_text. by destruct (decide _).
Qed.

Lemma insert_linebreak_write (p : os.platform) (self : Buffer.t) (x y : Z)
    (line : list ascii) :
  row self y = Some line -> 0 <= x <= py.len line ->
  exists self',
    Buffer.insert_linebreak self (x, y) = Ok self'
    /\ Buffer.write p self' =
       splice (Buffer.write p self)
         (char_offset (os.linesep p) (Buffer._lines self) (Z.to_nat y) (Z.to_nat x))
         (os.linesep p).
Proof.
  intros Hrow Hx. eexists. split; [by apply insert_linebreak_in_range|].
  apply row_Some in Hrow as [_ Hl]. rewrite !write_lines. cbn [Buffer._lines].
  apply join_linebreak; [done|]. unfold py.len in Hx. lia.
Qed.

(** X11. [insert_linebreak] at a position in range, and [insert_text]
    of the separator there, put the separator into the serialization at
    the character offset of the position and change nothing else of it. *)
Theorem linebreak_splices_separator (p : os.platform) (self : Buffer.t) (x y : Z)
    (line : list ascii) :
  row self y = Some line -> 0 <= x <= py.len line ->
  exists self',
    Buffer.insert_linebreak self (x, y) = Ok self'
    /\ Buffer.insert_text p self (x, y) (os.linesep p) = Ok self'
    /\ Buffer.write p self' =
       splice (Buffer.write p self)
         (char_offset (os.linesep p) (Buffer._lines self) (Z.to_nat y) (Z.to_nat x))
         (os.linesep p).
Proof.
  intros Hrow Hx.
  destruct (insert_linebreak_write p self x y line Hrow Hx) as (self' & Hrun & Hwrite).
  exists self'. split; [done|]. split; [|done].
  by rewrite insert_text_of_separator.
Qed.

Lemma linebreak_splices_separator_witness :
  exists self',
    Buffer.insert_linebreak (Buffer.mk [lit "ab"; lit "cdef"]) (1, 1) = Ok self'
    /\ Buffer.write os.nt self' = lit "ab" ++ [os.CR; os.LF] ++ lit "c"
                                  ++ [os.CR; os.LF] ++ lit "def".
Proof.
  destruct (linebreak_splices_separator os.nt (Buffer.mk [lit "ab"; lit "cdef"]) 1 1
              (lit "cdef") eq_refl)
    as (self' & Hrun & _ & Hwrite).
  - unfold py.len. simpl. lia.
  - exists self'. split; [exact Hrun|]. rewrite Hwrite. reflexivity.
Defined.

(** X12. [insert_text] of a text of one character at a position in
    range, the separator of posix included, puts that character into the
    serialization at the character offset of the position and changes
    nothing else of it. *)
Theorem single_character_is_spliced (p : os.platform) (self : Buffer.t) (x y : Z)
    (line : list ascii) (c : ascii) :
  row self y = Some line -> 0 <= x <= py.len line ->
  exists self',
    Buffer.insert_text p self (x, y) [c] = Ok self'
    /\ Buffer.write p self' =
       splice (Buffer.write p self)
         (char_offset (os.linesep p) (Buffer._lines self) (Z.to_nat y) (Z.to_nat x))
         [c].
Proof.
  intros Hrow Hx. destruct (decide ([c] = os.linesep p)) as [Heq|Hne].
  - rewrite Heq, insert_text_of_separator.
    by apply (insert_linebreak_write p self x y line).
  - by apply (insert_text_write p self x y line [c]).
Qed.

Lemma single_character_is_spliced_witness :
  exists self',
    Buffer.insert_text os.posix (Buffer.mk [lit "ab"; lit "cd"]) (1, 1) [os.LF] = Ok self'
    /\ Buffer.write os.posix self' = lit "ab" ++ [os.LF] ++ lit "c" ++ [os.LF] ++ lit "d".
Proof.
  destruct (single_character_is_spliced os.posix (Buffer.mk [lit "ab"; lit "cd"]) 1 1
              (lit "cd") os.LF eq_refl)
    as (self' & Hrun & Hwrite).
  - unfold py.len. simpl. lia.
  - exists self'. split; [exact Hrun|]. rewrite Hwrite. reflexivity.
Defined.

(** X13. [delete_text] at a position in range takes the character at
    the character offset of the position out of the serialization and
    changes nothing else of it: the serialization before is the one
    after with that character put back. *)
Theorem delete_text_unsplices (p : os.platform) (self : Buffer.t) (x y : Z)
    (line : list ascii) (c : ascii) :
  row self y = Some line -> 0 <= x -> line !! Z.to_nat x = Some c ->
  exists self',
    Buffer.delete_text self (x, y) = Ok self'
    /\ Buffer.write p self =
       splice (Buffer.write p self')
         (char_offset (os.linesep p) (Buffer._lines self) (Z.to_nat y) (Z.to_nat x))
         [c].
Proof.
  intros Hrow Hx Hc. pose proof (lookup_lt_Some _ _ _ Hc) as Hlt.
  eexists. split.
  { apply (delete_text_in_range self x y line Hrow). unfold py.len. lia. }
  apply row_Some in Hrow as [_ Hl].
  pose proof (lookup_lt_Some _ _ _ Hl) as Hk.
  rewrite !write_lines. cbn [Buffer._lines].
  set (line' := take (Z.to_nat x) line ++ drop (S (Z.to_nat x)) line).
  assert (Hlen : length (take (Z.to_nat x) line) = Z.to_nat x)
    by (rewrite length_take; lia).
  pose proof (join_splice (os.linesep p) [c]
                (<[Z.to_nat y := line']> (Buffer._lines self))
                (Z.to_nat y) line' (Z.to_nat x)) as Hjoin.
  rewrite char_offset_insert, list_insert_insert_eq in Hjoin.
  rewrite <- Hjoin.
  - unfold line'. rewrite take_app_length', drop_app_length' by done.
    change ([c] ++ ?l) with (c :: l).
    by rewrite take_drop_middle, list_insert_id.
  - by apply list_lookup_insert_eq.
  - unfold line'. rewrite length_app, Hlen. lia.
Qed.

Lemma delete_text_unsplices_witness :
  exists self',
    Buffer.delete_text (Buffer.mk [lit "ab"; lit "cde"]) (1, 1) = Ok self'
    /\ Buffer.write os.posix (Buffer.mk [lit "ab"; lit "cde"]) =
       splice (Buffer.write os.posix self') 4 (lit "d").
Proof.
  apply (delete_text_unsplices os.posix (Buffer.mk [lit "ab"; lit "cde"]) 1 1
           (lit "cde") "d"%char eq_refl); [lia|reflexivity].
Defined.

(** ** Reading the serialization back *)

Lemma startswith_app sep s : py.startswith (sep ++ s) sep = true.
Proof.
  induction sep as [|c sep IH]; [apply startswith_nil|].
  simpl. by rewrite Ascii.eqb_refl.
Qed.

Lemma split_go_skip sep passed : forall cur s,
  py.split_go sep (length passed) cur (passed ++ s) = py.split_go sep 0 cur s.
Proof. induction passed as [|a passed IH]; intros cur s; [done|apply IH]. Qed.

Lemma split_go_line c sep' line : forall cur s,
  c ∉ line ->
  py.split_go (c :: sep') 0 cur (line ++ (c :: sep') ++ s) =
  (rev cur ++ line) :: py.split_go (c :: sep') 0 [] s.
Proof.
  induction line as [|a line IH]; intros cur s Hc.
  - rewrite app_nil_r. cbn [app py.split_go].
    change (c :: sep' ++ s) with ((c :: sep') ++ s) at 1.
    rewrite startswith_app. cbn [length Nat.pred]. by rewrite split_go_skip.
  - apply not_elem_of_cons in Hc as [Hne Hc].
    change ((a :: line) ++ (c :: sep') ++ s) with (a :: (line ++ (c :: sep') ++ s)).
    cbn [py.split_go py.startswith].
    destruct (Ascii.eqb_spec c a) as [->|_]; [done|]. cbn [andb].
    rewrite (IH _ _ Hc). simpl. by rewrite <- app_assoc.
Qed.

Lemma split_go_last c sep' line : forall cur,
  c ∉ line -> py.split_go (c :: sep') 0 cur line = [rev cur ++ line].
Proof.
  induction line as [|a line IH]; intros cur Hc.
  - by rewrite app_nil_r.
  - apply not_elem_of_cons in Hc as [Hne Hc].
    cbn [py.split_go py.startswith].
    destruct (Ascii.eqb_spec c a) as [->|_]; [done|]. cbn [andb].
    rewrite (IH _ Hc). simpl. by rewrite <- app_assoc.
Qed.

Lemma split_join c sep' lines :
  lines <> [] -> Forall (fun line => c ∉ line) lines ->
  py.split (c :: sep') (py.join (c :: sep') lines) = lines.
Proof.
  unfold py.split. induction lines as [|l0 rest IH]; [done|].
  intros _ [H0 Hrest]%Forall_cons. destruct rest as [|l1 rest].
  - cbn [py.join]. by rewrite (split_go_last c sep' l0 [] H0).
  - rewrite join_cons by done.
    rewrite (split_go_line c sep' l0 [] _ H0). simpl rev. cbn [app].
    f_equal. by apply IH.
Qed.

(** X14. Of a buffer with at least one line and no character of the
    separator in any line, the serialization split at the separator is
    the list of the buffer's lines. *)
Theorem write_then_split (p : os.platform) (self : Buffer.t) :
  Buffer._lines self <> [] ->
  Forall (fun line => Forall (fun c => c ∉ os.linesep p) line) (Buffer._lines self) ->
  py.split (os.linesep p) (Buffer.write p self) = Buffer._lines self.
Proof.
  intros Hne Hfree. rewrite write_lines.
  assert (exists c sep', os.linesep p = c :: sep') as (c & sep' & Hsep)
    by (destruct p; simpl; eauto).
  rewrite Hsep in *. apply split_join; [done|].
  eapply Forall_impl; [exact Hfree|]. intros line Hline Hin.
  rewrite Forall_forall in Hline. apply (Hline c Hin). by left.
Qed.

Lemma write_then_split_witness :
  py.split (os.linesep os.nt)
    (Buffer.write os.nt (Buffer.mk [lit "ab"; []; lit "cde"]))
  = [lit "ab"; []; lit "cde"].
Proof.
  apply (write_then_split os.nt (Buffer.mk [lit "ab"; []; lit "cde"])).
  - discriminate.
  - apply (bool_decide_unpack _). vm_compute. exact I.
Defined.

(** * Further properties of the cell/segment lookup and the cursor overlay *)

Section SegmentLookupMore.
Variable Segment : Type.
Variable cell_length : Segment -> Z.

Lemma segment_loop_None cell_index line : forall length segment_index,
  Forall (fun segment => 0 <= cell_length segment) line ->
  segment_loop Segment cell_length cell_index length segment_index line = None ->
  cell_index < length \/ length + width Segment cell_length line <= cell_index.
Proof.
  induction line as [|s rest IH]; intros length segment_index Hnn; [simpl; lia|].
  apply Forall_cons in Hnn as [Hs Hrest]. cbn [segment_loop width].
  destruct (Z.leb_spec (length + cell_length s - cell_length s) cell_index);
    [|lia].
  destruct (Z.ltb_spec cell_index (length + cell_length s)); cbn [andb]; [done|].
  intros Hnone%IH; [lia|done].
Qed.

(** X15. For runs of non-negative cell widths the lookup returns [None]
    for exactly the cells outside the line: the negative ones and those
    at or beyond the total width. *)
Theorem segment_index_None_iff (line : list Segment) (cell_index : Z) :
  Forall (fun segment => 0 <= cell_length segment) line ->
  _get_segment_index_from_cell_index Segment cell_length cell_index line = None
  <-> cell_index < 0 \/ width Segment cell_length line <= cell_index.
Proof.
  intros Hnn. unfold _get_segment_index_from_cell_index. split.
  - intros H%segment_loop_None; [lia|done].
  - intros [Hneg|Hbeyond].
    + by apply segment_loop_before.
    + apply segment_loop_beyond; [done|lia].
Qed.

(** The index the loop returns is that of the first run whose interval
    holds the cell. *)
Lemma segment_loop_first cell_index line : forall length segment_index j,
  segment_loop Segment cell_length cell_index length segment_index line = Some j ->
  exists i segment,
    j = segment_index + Z.of_nat i /\ line !! i = Some segment
    /\ length + width Segment cell_length (take i line) <= cell_index
         < length + width Segment cell_length (take i line) + cell_length segment
    /\ forall i' segment', (i' < i)%nat -> line !! i' = Some segment' ->
         ~ (length + width Segment cell_length (take i' line) <= cell_index
              < length + width Segment cell_length (take i' line) + cell_length segment').
Proof.
  induction line as [|s rest IH]; intros length segment_index j; [done|].
  cbn [segment_loop].
  destruct ((length + cell_length s - cell_length s <=? cell_index)
            && (cell_index <? length + cell_length s)) eqn:Hcheck.
  - intros [= <-]. exists 0%nat, s. simpl.
    apply andb_prop in Hcheck as [H1%Z.leb_le H2%Z.ltb_lt].
    split; [lia|]. split; [done|]. split; [lia|]. intros i' segment' Hlt. lia.
  - intros (i & segment & -> & Hl & Hc & Hfirst)%IH. exists (S i), segment.
    simpl. split; [lia|]. split; [done|]. split; [lia|].
    intros [|i'] segment' Hlt Hl'; simpl in Hl'.
    + injection Hl' as <-. simpl. intros [H1 H2].
      apply andb_false_iff in Hcheck as [Hf%Z.leb_gt|Hf%Z.ltb_ge]; lia.
    + simpl. intros Hin. apply (Hfirst i' segment'); [lia|done|lia].
Qed.

(** X16. Whatever the cell widths, an index the lookup returns is an
    index of the line, the cell lies in the interval of cumulative widths
    of the run there, and in that of no run before it. *)
Theorem segment_index_is_first_cover (line : list Segment) (cell_index j : Z) :
  _get_segment_index_from_cell_index Segment cell_length cell_index line = Some j ->
  exists i segment,
    j = Z.of_nat i /\ line !! i = Some segment
    /\ width Segment cell_length (take i line) <= cell_index
         < width Segment cell_length (take i line) + cell_length segment
    /\ forall i' segment', (i' < i)%nat -> line !! i' = Some segment' ->
         ~ (width Segment cell_length (take i' line) <= cell_index
              < width Segment cell_length (take i' line) + cell_length segment').
Proof.
  unfold _get_segment_index_from_cell_index.
  intros (i & segment & -> & Hl & Hc & Hfirst)%segment_loop_first.
  exists i, segment. split; [lia|]. split; [done|]. split; [lia|].
  intros i' segment' Hlt Hl' Hin. apply (Hfirst i' segment' Hlt Hl'). lia.
Qed.

End SegmentLookupMore.

Lemma found_index_in_line (Segment : Type) (cell_length : Segment -> Z)
    (cell_index : Z) (line : list Segment) (j : Z) :
  _get_segment_index_from_cell_index Segment cell_length cell_index line = Some j ->
  exists i segment, j = Z.of_nat i /\ line !! i = Some segment.
Proof.
  unfold _get_segment_index_from_cell_index.
  intros (i & segment & -> & Hl & _)%segment_loop_first.
  exists i, segment. split; [lia|done].
Qed.

Lemma segment_index_None_iff_witness :
  _get_segment_index_from_cell_index Z id (-1) [2; 0; 3] = None
  /\ _get_segment_index_from_cell_index Z id 5 [2; 0; 3] = None.
Proof.
  assert (H : Forall (fun segment => 0 <= id segment) [2; 0; 3])
    by (repeat constructor; unfold id; lia).
  split.
  - apply (proj2 (segment_index_None_iff Z id [2; 0; 3] (-1) H)). left. lia.
  - apply (proj2 (segment_index_None_iff Z id [2; 0; 3] 5 H)). right.
    simpl. unfold id. lia.
Defined.

Lemma segment_index_is_first_cover_witness :
  exists i segment,
    2 = Z.of_nat i /\ [2; 0; 3] !! i = Some segment
    /\ width Z id (take i [2; 0; 3]) <= 3 < width Z id (take i [2; 0; 3]) + id segment.
Proof.
  destruct (segment_index_is_first_cover Z id [2; 0; 3] 3 2 eq_refl)
    as (i & segment & Hi & Hl & Hc & _).
  exists i, segment. split; [exact Hi|]. split; [exact Hl|exact Hc].
Defined.

Section CursorOverlayFacts.
Variable Segment : Type.
Variable Style : Type.
Variable cell_length : Segment -> Z.
Variable text : Segment -> str.
Variable Segment_ : str -> Style -> Segment.
Variable get_line_length : list Segment -> Z.
Variable divide : list Segment -> list Z -> result (list (list Segment)).
Variable adjust_line_length : list Segment -> Z -> list Segment.

Local Abbreviation set_cursor :=
  (_set_cursor Segment Style cell_length text Segment_ get_line_length divide
     adjust_line_length).

Lemma set_cursor_raises index line style e :
  set_cursor index line style = Raise e <->
  divide line (cursor_cuts Segment get_line_length index line) = Raise e.
Proof.
  unfold _set_cursor, cursor_cuts.
  destruct (divide line _) as [pieces|e'];
    [|split; intros H; inversion H; reflexivity].
  rewrite bind_Ok. split; [|done].
  destruct (_get_segment_index_from_cell_index _ _ _ _) as [j|] eqn:Hfind; [|done].
  destruct (found_index_in_line Segment cell_length _ _ _ Hfind)
    as (k & segment & -> & Hl).
  assert (Hk : 0 <= Z.of_nat k) by lia.
  rewrite (getitem_in_range _ (Z.of_nat k) segment Hk) by (by rewrite Nat2Z.id).
  rewrite bind_Ok.
  by rewrite (setitem_in_range _ (Z.of_nat k) segment _ Hk) by (by rewrite Nat2Z.id).
Qed.

Lemma set_cursor_after_divide index line style pieces :
  divide line (cursor_cuts Segment get_line_length index line) = Ok pieces ->
  let segments := cursor_segments Segment get_line_length adjust_line_length
                    line pieces in
  (_get_segment_index_from_cell_index Segment cell_length index segments = None
   /\ set_cursor index line style = Ok line)
  \/ (exists k segment,
        _get_segment_index_from_cell_index Segment cell_length index segments
        = Some (Z.of_nat k)
        /\ segments !! k = Some segment
        /\ set_cursor index line style
           = Ok (<[k := Segment_ (text segment) style]> segments)).
Proof.
  intros Hdiv segments. unfold _set_cursor. unfold cursor_cuts in Hdiv.
  rewrite Hdiv, bind_Ok. fold (cursor_segments Segment get_line_length
                                 adjust_line_length line pieces). fold segments.
  destruct (_get_segment_index_from_cell_index _ _ _ _) as [j|] eqn:Hfind;
    [right|by left].
  destruct (found_index_in_line Segment cell_length _ _ _ Hfind)
    as (k & segment & -> & Hl).
  exists k, segment. split; [done|]. split; [done|].
  assert (Hk : 0 <= Z.of_nat k) by lia.
  rewrite (getitem_in_range segments (Z.of_nat k) segment Hk)
    by (by rewrite Nat2Z.id).
  rewrite bind_Ok.
  rewrite (setitem_in_range segments (Z.of_nat k) segment _ Hk)
    by (by rewrite Nat2Z.id).
  by rewrite Nat2Z.id.
Qed.

(** X17. [_set_cursor] raises what [Segment.divide] raises on the cuts
    0, index, index + 1, line length, and nothing else: its own indexing
    never raises. When the division returns and the lookup in the
    flattened and adjusted pieces finds no run, it returns the line it
    was given; otherwise it returns the flattened and adjusted pieces
    with the one run at the found index replaced by a run of the same
    text in the cursor's style, and every other run as it is. *)
Theorem set_cursor_restyles_one_run (index : Z) (line : list Segment) (style : Style) :
  (forall e,
      set_cursor index line style = Raise e <->
      divide line (cursor_cuts Segment get_line_length index line) = Raise e)
  /\ (forall pieces,
      divide line (cursor_cuts Segment get_line_length index line) = Ok pieces ->
      let segments := cursor_segments Segment get_line_length adjust_line_length
                        line pieces in
      (_get_segment_index_from_cell_index Segment cell_length index segments = None
       /\ set_cursor index line style = Ok line)
      \/ (exists k segment,
            _get_segment_index_from_cell_index Segment cell_length index segments
            = Some (Z.of_nat k)
            /\ segments !! k = Some segment
            /\ set_cursor index line style
               = Ok (<[k := Segment_ (text segment) style]> segments))).
Proof.
  split.
  - intros e. apply set_cursor_raises.
  - intros pieces Hdiv. by apply set_cursor_after_divide.
Qed.

End CursorOverlayFacts.

Lemma set_cursor_restyles_one_run_witness :
  _set_cursor (Z * bool) bool fst (fun _ => []) (fun _ style => (1, style))
    (fun line => 3)
    (fun line cuts => if forallb (Z.leb 0) cuts then Ok [line] else Raise AssertionError)
    (fun line _ => line) (-2) [(2, false); (1, false)] true
  = Raise AssertionError
  /\ _set_cursor (Z * bool) bool fst (fun _ => []) (fun _ style => (1, style))
    (fun line => 3)
    (fun line cuts => if forallb (Z.leb 0) cuts then Ok [line] else Raise AssertionError)
    (fun line _ => line) 2 [(2, false); (1, false)] true
  = Ok [(2, false); (1, true)].
Proof.
  split.
  - apply (proj1 (set_cursor_restyles_one_run (Z * bool) bool fst (fun _ => [])
                    (fun _ style => (1, style)) (fun line => 3)
                    (fun line cuts =>
                       if forallb (Z.leb 0) cuts then Ok [line] else Raise AssertionError)
                    (fun line _ => line) (-2) [(2, false); (1, false)] true)
             AssertionError).
    reflexivity.
  - destruct (proj2 (set_cursor_restyles_one_run (Z * bool) bool fst (fun _ => [])
                    (fun _ style => (1, style)) (fun line => 3)
                    (fun line cuts =>
                       if forallb (Z.leb 0) cuts then Ok [line] else Raise AssertionError)
                    (fun line _ => line) 2 [(2, false); (1, false)] true)
                [[(2, false); (1, false)]] eq_refl)
      as [[Hnone _]|(k & segment & Hfind & Hl & Hrun)].
    + discriminate Hnone.
    + change (Some 1 = Some (Z.of_nat k)) in Hfind. injection Hfind as Hk.
      assert (k = 1%nat) as -> by lia.
      vm_compute in Hl. injection Hl as <-. exact Hrun.
Defined.

(** * Further properties of the cursor and the text area *)

Section CursorMore.
Variable Segment : Type.
Implicit Types self : TextArea.t Segment.

Lemma row_exists (b : Buffer.t) y :
  0 <= y < Buffer.max_y b -> exists line, row b y = Some line.
Proof.
  intros Hy. unfold row, Buffer.max_y, py.len in *.
  destruct (Z.ltb_spec y 0); [lia|]. apply lookup_lt_is_Some_2. lia.
Qed.

Lemma validate_cursor_x_on_row self x line :
  row (TextArea._buffer Segment self) (TextArea.cursor_y Segment self) = Some line ->
  TextArea.validate_cursor_x Segment self x = Ok (Z.min x (py.len line)).
Proof.
  intros Hrow. destruct (Z_le_gt_dec x (py.len line)).
  - rewrite (validate_cursor_x_inside Segment self x line) by done. f_equal. lia.
  - rewrite (validate_cursor_x_beyond Segment self x line) by (done || lia).
    f_equal. lia.
Qed.

Lemma validate_cursor_y_in_rows self (y : Z) :
  1 <= Buffer.max_y (TextArea._buffer Segment self) ->
  exists r,
    TextArea.validate_cursor_y Segment self y = Ok r
    /\ 0 <= r <= Buffer.max_y (TextArea._buffer Segment self) - 1.
Proof.
  intros Hmax. unfold TextArea.validate_cursor_y, _is_negative.
  destruct (Z.ltb_spec y 0); [exists 0; split; [done|lia]|].
  destruct (Z.gtb_spec y (Buffer.max_y (TextArea._buffer Segment self) - 1));
    eexists; (split; [reflexivity|lia]).
Qed.

(** X18. For a buffer with at least one line [validate_cursor_y]
    returns the target row clamped into [0 .. max_y - 1]: 0 for a
    negative row, [max_y - 1] for a row beyond it, the row itself
    otherwise; what it returns it returns again when given it. *)
Theorem validate_cursor_y_clamps self (y : Z) :
  1 <= Buffer.max_y (TextArea._buffer Segment self) ->
  exists r,
    TextArea.validate_cursor_y Segment self y = Ok r
    /\ r = Z.max 0 (Z.min y (Buffer.max_y (TextArea._buffer Segment self) - 1))
    /\ 0 <= r <= Buffer.max_y (TextArea._buffer Segment self) - 1
    /\ TextArea.validate_cursor_y Segment self r = Ok r.
Proof.
  intros Hmax. unfold TextArea.validate_cursor_y, _is_negative.
  set (last_line := Buffer.max_y (TextArea._buffer Segment self) - 1) in *.
  destruct (Z.ltb_spec y 0).
  - exists 0. split; [done|]. split; [lia|]. split; [lia|].
    destruct (Z.ltb_spec 0 0); [lia|]. by destruct (Z.gtb_spec 0 last_line); [lia|].
  - destruct (Z.gtb_spec y last_line).
    + exists last_line. split; [done|]. split; [lia|]. split; [lia|].
      destruct (Z.ltb_spec last_line 0); [lia|].
      by destruct (Z.gtb_spec last_line last_line); [lia|].
    + exists y. split; [done|]. split; [lia|]. split; [lia|].
      destruct (Z.ltb_spec y 0); [lia|]. by destruct (Z.gtb_spec y last_line); [lia|].
Qed.

(** X19. With the cursor on a row of the buffer [validate_cursor_x]
    returns the smaller of the target column and the length of that row's
    line, so never a column beyond the end of the line; with the cursor's
    row at [max_y] or beyond it returns the target column as it is. *)
Theorem validate_cursor_x_is_min self (x : Z) :
  (forall line,
      row (TextArea._buffer Segment self) (TextArea.cursor_y Segment self) = Some line ->
      TextArea.validate_cursor_x Segment self x = Ok (Z.min x (py.len line)))
  /\ (Buffer.max_y (TextArea._buffer Segment self) <= TextArea.cursor_y Segment self ->
      TextArea.validate_cursor_x Segment self x = Ok x).
Proof.
  split; [intros line; apply validate_cursor_x_on_row|].
  intros Hy. unfold TextArea.validate_cursor_x. cbn [_is_negative Z.ltb Z.compare].
  rewrite get_line_length_beyond by (by left). by rewrite bind_Ok.
Qed.

End CursorMore.

Lemma validate_cursor_y_clamps_witness :
  TextArea.validate_cursor_y unit
    (TextArea.mk unit (Buffer.mk [lit "ab"; lit "cde"]) [] 0 0 (3, 2)) 7 = Ok 1
  /\ TextArea.validate_cursor_y unit
    (TextArea.mk unit (Buffer.mk [lit "ab"; lit "cde"]) [] 0 0 (3, 2)) (-5) = Ok 0.
Proof.
  split.
  - destruct (validate_cursor_y_clamps unit
                (TextArea.mk unit (Buffer.mk [lit "ab"; lit "cde"]) [] 0 0 (3, 2)) 7)
      as (r & Hr & -> & _).
    + unfold Buffer.max_y, py.len. simpl. lia.
    + exact Hr.
  - destruct (validate_cursor_y_clamps unit
                (TextArea.mk unit (Buffer.mk [lit "ab"; lit "cde"]) [] 0 0 (3, 2)) (-5))
      as (r & Hr & -> & _).
    + unfold Buffer.max_y, py.len. simpl. lia.
    + exact Hr.
Defined.

Lemma validate_cursor_x_is_min_witness :
  TextArea.validate_cursor_x unit
    (TextArea.mk unit (Buffer.mk [lit "ab"; lit "cde"]) [] 0 0 (3, 2)) 9 = Ok 2
  /\ TextArea.validate_cursor_x unit
    (TextArea.mk unit (Buffer.mk [lit "ab"; lit "cde"]) [] 5 0 (3, 2)) 9 = Ok 9.
Proof.
  split.
  - apply (proj1 (validate_cursor_x_is_min unit
                    (TextArea.mk unit (Buffer.mk [lit "ab"; lit "cde"]) [] 0 0 (3, 2)) 9)
             (lit "ab")).
    reflexivity.
  - apply (proj2 (validate_cursor_x_is_min unit
                    (TextArea.mk unit (Buffer.mk [lit "ab"; lit "cde"]) [] 5 0 (3, 2)) 9)).
    unfold Buffer.max_y, py.len. simpl. lia.
Defined.

Section WidgetFacts.
Variable p : os.platform.
Variable Segment : Type.
Variable render_lines : str -> Z -> Z -> list (list Segment).
Implicit Types self : TextArea.t Segment.

Lemma validate_cursor_x_returns self x :
  exists r, TextArea.validate_cursor_x Segment self x = Ok r.
Proof.
  unfold TextArea.validate_cursor_x. cbn [_is_negative Z.ltb Z.compare].
  destruct (get_line_length_never_raises (TextArea._buffer Segment self)
              (TextArea.cursor_y Segment self)) as [[line_length|] ->];
    rewrite bind_Ok; [|eauto].
  destruct (_ >? _); eauto.
Qed.

Lemma validate_cursor_y_returns self y :
  exists r, TextArea.validate_cursor_y Segment self y = Ok r.
Proof.
  unfold TextArea.validate_cursor_y.
  destruct (_is_negative y); [eauto|]. destruct (_ >? _); eauto.
Qed.

Lemma set_cursor_x_on_row self x line :
  row (TextArea._buffer Segment self) (TextArea.cursor_y Segment self) = Some line ->
  TextArea.set_cursor_x Segment self x =
  Ok (TextArea.mk Segment (TextArea._buffer Segment self) (TextArea.lines Segment self)
        (TextArea.cursor_y Segment self) (Z.min x (py.len line))
        (TextArea.virtual_size Segment self)).
Proof.
  intros Hrow. unfold TextArea.set_cursor_x.
  by rewrite (validate_cursor_x_on_row Segment self x line Hrow), bind_Ok.
Qed.

Lemma update_lines_returns self m :
  Buffer.max_x (TextArea._buffer Segment self) = Ok m ->
  TextArea._update_lines p Segment render_lines self =
  Ok (TextArea.mk Segment (TextArea._buffer Segment self)
        (render_lines (Buffer.write p (TextArea._buffer Segment self)) m
           (Buffer.max_y (TextArea._buffer Segment self)))
        (TextArea.cursor_y Segment self) (TextArea.cursor_x Segment self)
        (m, Buffer.max_y (TextArea._buffer Segment self))).
Proof.
  intros Hm. unfold TextArea._update_lines, TextArea._make_lines.
  by rewrite Hm, !bind_Ok.
Qed.

Lemma max_x_returns (b : Buffer.t) :
  1 <= Buffer.max_y b -> exists m, Buffer.max_x b = Ok m /\ 0 <= m.
Proof.
  intros Hmax. destruct (max_x_of_some_lines b)
    as (m & Hm & _ & line & _ & <-).
  - unfold Buffer.max_y, py.len in Hmax. by destruct (Buffer._lines b).
  - exists (py.len line). split; [done|apply len_nonneg].
Qed.

(** X20. The four cursor moves never raise and change neither the
    buffer nor the rendered lines nor the virtual size; the two vertical
    ones leave the column, the two horizontal ones the row. *)
Theorem cursor_moves_keep_the_text (a : action) self :
  is_move a = true ->
  exists self',
    perform p Segment render_lines a self = Ok self'
    /\ TextArea._buffer Segment self' = TextArea._buffer Segment self
    /\ TextArea.lines Segment self' = TextArea.lines Segment self
    /\ TextArea.virtual_size Segment self' = TextArea.virtual_size Segment self
    /\ (a = CursorUp \/ a = CursorDown ->
        TextArea.cursor_x Segment self' = TextArea.cursor_x Segment self)
    /\ (a = CursorLeft \/ a = CursorRight ->
        TextArea.cursor_y Segment self' = TextArea.cursor_y Segment self).
Proof.
  destruct a; try discriminate; intros _; cbn [perform];
    unfold TextArea.action_cursor_left, TextArea.action_cursor_right,
      TextArea.action_cursor_up, TextArea.action_cursor_down,
      TextArea.set_cursor_x, TextArea.set_cursor_y.
  1,2: match goal with |- context [TextArea.validate_cursor_x _ _ ?v] =>
         destruct (validate_cursor_x_returns self v) as [r ->] end.
  3,4: match goal with |- context [TextArea.validate_cursor_y _ _ ?v] =>
         destruct (validate_cursor_y_returns self v) as [r ->] end.
  all: rewrite bind_Ok; eexists; split; [reflexivity|];
    repeat split; try done; intros [?|?]; discriminate.
Qed.

(** X21. At the borders the moves are no-ops: [action_cursor_up] on
    row 0, [action_cursor_down] on the last row, [action_cursor_right] at
    the end of the cursor's line return the text area as it is. Inside,
    [action_cursor_right] adds one to the column. *)
Theorem moves_at_the_borders self :
  (TextArea.cursor_y Segment self = 0 ->
   TextArea.action_cursor_up Segment self = Ok self)
  /\ (TextArea.cursor_y Segment self = Buffer.max_y (TextArea._buffer Segment self) - 1 ->
      TextArea.action_cursor_down Segment self = Ok self)
  /\ (forall line,
      row (TextArea._buffer Segment self) (TextArea.cursor_y Segment self) = Some line ->
      (TextArea.cursor_x Segment self = py.len line ->
       TextArea.action_cursor_right Segment self = Ok self)
      /\ (TextArea.cursor_x Segment self < py.len line ->
          exists self',
            TextArea.action_cursor_right Segment self = Ok self'
            /\ TextArea.cursor_offset Segment self'
               = (TextArea.cursor_x Segment self + 1, TextArea.cursor_y Segment self))).
Proof.
  destruct self as [b ls cy cx vs]. proj. split; [|split].
  - intros ->. reflexivity.
  - intros ->. unfold TextArea.action_cursor_down, TextArea.set_cursor_y,
      TextArea.validate_cursor_y, _is_negative. proj.
    pose proof (len_nonneg (Buffer._lines b)). unfold Buffer.max_y in *.
    destruct (Z.ltb_spec (py.len (Buffer._lines b) - 1 + 1) 0); [lia|].
    destruct (Z.gtb_spec (py.len (Buffer._lines b) - 1 + 1)
                (py.len (Buffer._lines b) - 1)); [|lia].
    by rewrite bind_Ok.
  - intros line Hrow. unfold TextArea.action_cursor_right.
    rewrite (set_cursor_x_on_row _ _ line) by done. proj. split.
    + intros ->. do 2 f_equal. lia.
    + intros Hx. eexists. split; [reflexivity|].
      unfold TextArea.cursor_offset, TextArea.compute_cursor_offset. proj.
      f_equal. lia.
Qed.

End WidgetFacts.

Lemma cursor_moves_keep_the_text_witness :
  exists self',
    perform os.posix unit (fun _ _ _ => []) CursorDown
      (TextArea.mk unit (Buffer.mk [lit "abc"; []]) [[tt]] 0 3 (3, 2)) = Ok self'
    /\ TextArea._buffer unit self' = Buffer.mk [lit "abc"; []]
    /\ TextArea.lines unit self' = [[tt]]
    /\ TextArea.cursor_x unit self' = 3.
Proof.
  destruct (cursor_moves_keep_the_text os.posix unit (fun _ _ _ => []) CursorDown
              (TextArea.mk unit (Buffer.mk [lit "abc"; []]) [[tt]] 0 3 (3, 2)) eq_refl)
    as (self' & Hrun & Hb & Hl & _ & Hx & _).
  exists self'. split; [exact Hrun|]. split; [exact Hb|]. split; [exact Hl|].
  apply Hx. by right.
Defined.

Lemma moves_at_the_borders_witness :
  TextArea.action_cursor_up unit
    (TextArea.mk unit (Buffer.mk [lit "ab"; lit "cde"]) [] 0 1 (3, 2))
  = Ok (TextArea.mk unit (Buffer.mk [lit "ab"; lit "cde"]) [] 0 1 (3, 2))
  /\ TextArea.action_cursor_down unit
    (TextArea.mk unit (Buffer.mk [lit "ab"; lit "cde"]) [] 1 1 (3, 2))
  = Ok (TextArea.mk unit (Buffer.mk [lit "ab"; lit "cde"]) [] 1 1 (3, 2))
  /\ TextArea.action_cursor_right unit
    (TextArea.mk unit (Buffer.mk [lit "ab"; lit "cde"]) [] 1 3 (3, 2))
  = Ok (TextArea.mk unit (Buffer.mk [lit "ab"; lit "cde"]) [] 1 3 (3, 2)).
Proof.
  split; [|split].
  - apply (proj1 (moves_at_the_borders unit
                    (TextArea.mk unit (Buffer.mk [lit "ab"; lit "cde"]) [] 0 1 (3, 2)))).
    reflexivity.
  - apply (proj1 (proj2 (moves_at_the_borders unit
                    (TextArea.mk unit (Buffer.mk [lit "ab"; lit "cde"]) [] 1 1 (3, 2))))).
    reflexivity.
  - apply (proj1 (proj2 (proj2 (moves_at_the_borders unit
                    (TextArea.mk unit (Buffer.mk [lit "ab"; lit "cde"]) [] 1 3 (3, 2))))
                    (lit "cde") eq_refl)).
    reflexivity.
Defined.

Section WidgetEdits.
Variable p : os.platform.
Variable Segment : Type.
Variable render_lines : str -> Z -> Z -> list (list Segment).
Implicit Types self : TextArea.t Segment.

Lemma insert_text_on_row (b : Buffer.t) x y text :
  0 <= y < Buffer.max_y b ->
  exists b', Buffer.insert_text p b (x, y) text = Ok b'
             /\ Buffer.max_y b <= Buffer.max_y b'.
Proof.
  intros [line Hrow]%row_exists.
  destruct (decide (text = os.linesep p)) as [->|Hsep].
  - destruct (insert_linebreak_any_column b x y line Hrow) as (b' & Hrun & Hcount).
    exists b'. split; [|lia].
    unfold Buffer.insert_text. by destruct (decide _).
  - destruct (insert_text_any_column p b x y line text Hrow Hsep)
      as (b' & _ & Hrun & _ & _ & Hcount).
    exists b'. split; [done|lia].
Qed.

Lemma perform_keeps_cursor_on_text (a : action) self :
  cursor_on_text self ->
  exists self', perform p Segment render_lines a self = Ok self'
                /\ cursor_on_text self'
                /\ Z.min 0 (TextArea.cursor_x Segment self) - 1
                   <= TextArea.cursor_x Segment self'.
Proof.
  destruct self as [b ls cy cx vs]. unfold cursor_on_text. proj.
  intros (Hy & m & Hm & Hx).
  destruct (row_exists b cy Hy) as [line Hrow].
  pose proof (max_x_bounds_row b cy line m Hrow Hm) as Hline.
  pose proof (len_nonneg line) as Hnn.
  destruct a as [| | | | |text]; cbn [perform].
  - unfold TextArea.action_cursor_left.
    rewrite (set_cursor_x_on_row Segment _ _ line) by done.
    eexists. split; [reflexivity|]. proj.
    split; [|lia]. split; [done|]. exists m. split; [done|lia].
  - unfold TextArea.action_cursor_right.
    rewrite (set_cursor_x_on_row Segment _ _ line) by done.
    eexists. split; [reflexivity|]. proj.
    split; [|lia]. split; [done|]. exists m. split; [done|lia].
  - unfold TextArea.action_cursor_up, TextArea.set_cursor_y. proj.
    destruct (validate_cursor_y_in_rows Segment
                (TextArea.mk Segment b ls cy cx vs) (cy - 1)) as (r & -> & Hr);
      [proj; lia|].
    rewrite bind_Ok. eexists. split; [reflexivity|].
    cbn [TextArea._buffer] in Hr. proj.
    split; [|lia]. split; [lia|]. eauto.
  - unfold TextArea.action_cursor_down, TextArea.set_cursor_y. proj.
    destruct (validate_cursor_y_in_rows Segment
                (TextArea.mk Segment b ls cy cx vs) (cy + 1)) as (r & -> & Hr);
      [proj; lia|].
    rewrite bind_Ok. eexists. split; [reflexivity|].
    cbn [TextArea._buffer] in Hr. proj.
    split; [|lia]. split; [lia|]. eauto.
  - destruct (insert_linebreak_any_column b cx cy line Hrow)
      as (b' & Hrun & Hcount).
    unfold TextArea.action_insert_linebreak_at_cursor, TextArea.cursor_offset,
      TextArea.compute_cursor_offset. proj. rewrite Hrun, bind_Ok.
    unfold TextArea.action_cursor_down, TextArea.set_cursor_y, TextArea.set_buffer.
    proj. rewrite validate_cursor_y_inside by (proj; lia). rewrite !bind_Ok. proj.
    destruct (row_exists b' (cy + 1)) as [line2 Hrow2]; [lia|].
    rewrite (set_cursor_x_on_row Segment _ _ line2) by done. rewrite bind_Ok. proj.
    destruct (max_x_returns b') as (m' & Hm' & Hpos); [lia|].
    rewrite (update_lines_returns p Segment render_lines _ m') by done. proj.
    pose proof (len_nonneg line2).
    eexists. split; [reflexivity|]. proj.
    split; [|lia]. split; [lia|]. exists m'. split; [done|lia].
  - destruct (insert_text_on_row b cx cy text Hy) as (b' & Hrun & Hcount).
    unfold TextArea.insert_text_at_cursor, TextArea.cursor_offset,
      TextArea.compute_cursor_offset. proj. rewrite Hrun, bind_Ok.
    destruct (max_x_returns b') as (m' & Hm' & Hpos); [lia|].
    unfold TextArea.set_buffer. proj.
    rewrite (update_lines_returns p Segment render_lines _ m') by done.
    rewrite bind_Ok. proj.
    destruct (row_exists b' cy) as [line' Hrow']; [lia|].
    rewrite (set_cursor_x_on_row Segment _ _ line') by done.
    pose proof (max_x_bounds_row b' cy line' m' Hrow' Hm').
    pose proof (len_nonneg line'). pose proof (len_nonneg text).
    eexists. split; [reflexivity|]. proj.
    split; [|lia]. split; [lia|]. exists m'. split; [done|lia].
Qed.

(** X22. A new text area has its cursor on a row of the buffer and at
    a column not beyond the longest line. From a text area of which that
    holds, every sequence of cursor moves, linebreaks at the cursor and
    text insertions at the cursor that has at most
    2147483648 + min(0, cursor_x) actions runs to its end without raising
    and leaves a text area of which that holds again, its column at
    -2147483648 or above: no action lowers the column by more than one,
    so every column handed to the buffer on the way fits an index of the
    machine. *)
Theorem actions_never_raise :
  cursor_on_text (TextArea.__init__ Segment)
  /\ forall actions self,
      cursor_on_text self ->
      Z.of_nat (length actions) <= 2147483648 + Z.min 0 (TextArea.cursor_x Segment self) ->
      exists self', perform_all p Segment render_lines actions self = Ok self'
                    /\ cursor_on_text self'
                    /\ -2147483648 <= TextArea.cursor_x Segment self'.
Proof.
  split.
  - unfold cursor_on_text. simpl. split; [unfold Buffer.max_y, py.len; simpl; lia|].
    exists 0. split; [done|lia].
  - induction actions as [|a rest IH]; intros self Hinv Hlen.
    + exists self. simpl in *. split; [done|]. split; [done|lia].
    + destruct (perform_keeps_cursor_on_text a self Hinv)
        as (self1 & Hrun & Hinv1 & Hlow).
      cbn [perform_all]. rewrite Hrun, bind_Ok. apply IH; [done|].
      cbn [length] in Hlen. lia.
Qed.

Lemma set_cursor_x_frame self x self' :
  TextArea.set_cursor_x Segment self x = Ok self' ->
  TextArea._buffer Segment self' = TextArea._buffer Segment self
  /\ TextArea.lines Segment self' = TextArea.lines Segment self
  /\ TextArea.virtual_size Segment self' = TextArea.virtual_size Segment self.
Proof.
  unfold TextArea.set_cursor_x. by intros (r & _ & [= <-])%bind_Ok_inv.
Qed.

Lemma set_cursor_y_frame self y self' :
  TextArea.set_cursor_y Segment self y = Ok self' ->
  TextArea._buffer Segment self' = TextArea._buffer Segment self
  /\ TextArea.lines Segment self' = TextArea.lines Segment self
  /\ TextArea.virtual_size Segment self' = TextArea.virtual_size Segment self.
Proof.
  unfold TextArea.set_cursor_y. by intros (r & _ & [= <-])%bind_Ok_inv.
Qed.

Lemma move_frame (a : action) self self' :
  is_move a = true -> perform p Segment render_lines a self = Ok self' ->
  TextArea._buffer Segment self' = TextArea._buffer Segment self
  /\ TextArea.lines Segment self' = TextArea.lines Segment self
  /\ TextArea.virtual_size Segment self' = TextArea.virtual_size Segment self.
Proof.
  destruct a; try discriminate; intros _; cbn [perform].
  - apply set_cursor_x_frame.
  - apply set_cursor_x_frame.
  - apply set_cursor_y_frame.
  - apply set_cursor_y_frame.
Qed.

Lemma update_lines_rendered self self' :
  TextArea._update_lines p Segment render_lines self = Ok self' ->
  rendered p Segment render_lines self'.
Proof.
  unfold TextArea._update_lines, TextArea._make_lines.
  intros (ls & Hls & H)%bind_Ok_inv.
  apply bind_Ok_inv in Hls as (m1 & Hm1 & [= <-]).
  apply bind_Ok_inv in H as (m & Hm & [= <-]).
  rewrite Hm in Hm1. injection Hm1 as <-.
  exists m. by proj.
Qed.

(** X23. When [action_insert_linebreak_at_cursor] or
    [insert_text_at_cursor] returns, [lines] is what the highlighting
    engine made of the serialization of the buffer as it now is, within
    [max_x] by [max_y], and [virtual_size] is [max_x] by [max_y]; the
    cursor moves keep that. *)
Theorem edits_render_the_buffer self self' :
  (TextArea.action_insert_linebreak_at_cursor p Segment render_lines self = Ok self' ->
   rendered p Segment render_lines self')
  /\ (forall text,
      TextArea.insert_text_at_cursor p Segment render_lines self text = Ok self' ->
      rendered p Segment render_lines self')
  /\ (forall a,
      is_move a = true -> perform p Segment render_lines a self = Ok self' ->
      rendered p Segment render_lines self -> rendered p Segment render_lines self').
Proof.
  split; [|split].
  - unfold TextArea.action_insert_linebreak_at_cursor.
    intros (b & _ & H)%bind_Ok_inv.
    apply bind_Ok_inv in H as (self1 & _ & H).
    apply bind_Ok_inv in H as (self2 & _ & H).
    by apply update_lines_rendered in H.
  - intros text. unfold TextArea.insert_text_at_cursor.
    intros (b & _ & H)%bind_Ok_inv.
    apply bind_Ok_inv in H as (self1 & Hup%update_lines_rendered & H).
    apply set_cursor_x_frame in H as (Hb & Hl & Hv).
    destruct Hup as (m & Hm & Hlines & Hsize).
    exists m. by rewrite Hb, Hl, Hv.
  - intros a Hmove Hrun (m & Hm & Hlines & Hsize).
    destruct (move_frame a self self' Hmove Hrun) as (Hb & Hl & Hv).
    exists m. by rewrite Hb, Hl, Hv.
Qed.

End WidgetEdits.

Lemma actions_never_raise_witness :
  exists self',
    perform_all os.posix unit (fun _ _ _ => [])
      [CursorLeft; InsertTextAtCursor (lit "ab"); CursorDown;
       InsertLinebreakAtCursor; CursorUp; CursorRight; CursorRight]
      (TextArea.__init__ unit) = Ok self'
    /\ cursor_on_text self'
    /\ -2147483648 <= TextArea.cursor_x unit self'.
Proof.
  apply (proj2 (actions_never_raise os.posix unit (fun _ _ _ => []))).
  - apply (proj1 (actions_never_raise os.posix unit (fun _ _ _ => []))).
  - simpl. lia.
Defined.

Lemma edits_render_the_buffer_witness :
  rendered os.posix unit (fun _ _ _ => [[tt]])
    (TextArea.mk unit (Buffer.mk [lit "aX"]) [[tt]] 0 2 (2, 1)).
Proof.
  apply (proj1 (proj2 (edits_render_the_buffer os.posix unit (fun _ _ _ => [[tt]])
                         (TextArea.mk unit (Buffer.mk [lit "a"]) [] 0 1 (0, 0))
                         (TextArea.mk unit (Buffer.mk [lit "aX"]) [[tt]] 0 2 (2, 1))))
           (lit "X")).
  reflexivity.
Defined.

Section Typing.
Variable p : os.platform.
Variable Segment : Type.
Variable render_lines : str -> Z -> Z -> list (list Segment).
Implicit Types self : TextArea.t Segment.

Lemma insert_text_at_cursor_in_range self (line : list ascii) (text : str) :
  row (TextArea._buffer Segment self) (TextArea.cursor_y Segment self) = Some line ->
  0 <= TextArea.cursor_x Segment self <= py.len line ->
  text <> os.linesep p ->
  exists self' line',
    TextArea.insert_text_at_cursor p Segment render_lines self text = Ok self'
    /\ line' = take (Z.to_nat (TextArea.cursor_x Segment self)) line ++ rev text
               ++ drop (Z.to_nat (TextArea.cursor_x Segment self)) line
    /\ row (TextArea._buffer Segment self') (TextArea.cursor_y Segment self) = Some line'
    /\ (forall y', y' <> TextArea.cursor_y Segment self ->
        row (TextArea._buffer Segment self') y' = row (TextArea._buffer Segment self) y')
    /\ TextArea.cursor_y Segment self' = TextArea.cursor_y Segment self
    /\ TextArea.cursor_x Segment self' = TextArea.cursor_x Segment self + py.len text
    /\ TextArea.cursor_x Segment self' <= py.len line'.
Proof.
  destruct self as [b ls cy cx vs]. proj. intros Hrow Hx Hsep.
  pose proof (insert_text_in_range p b cx cy line text Hrow Hx Hsep) as Hrun.
  set (b' := Buffer.mk _) in Hrun.
  pose proof Hrow as [[Hy _] _]%row_Some.
  assert (Hrow' : row b' cy
                  = Some (take (Z.to_nat cx) line ++ rev text ++ drop (Z.to_nat cx) line))
    by (by eapply row_insert_eq).
  assert (Hother : forall y', y' <> cy -> row b' y' = row b y')
    by (intros y' Hne; by apply row_insert_ne).
  assert (Hlen : py.len (take (Z.to_nat cx) line ++ rev text ++ drop (Z.to_nat cx) line)
                 = py.len line + py.len text).
  { unfold py.len in *. rewrite !length_app, length_rev, length_take, length_drop. lia. }
  pose proof Hrow' as [Hy' _]%row_Some.
  destruct (max_x_returns b') as (m' & Hm' & _); [lia|].
  exists (TextArea.mk Segment b'
            (render_lines (Buffer.write p b') m' (Buffer.max_y b')) cy
            (cx + py.len text) (m', Buffer.max_y b')),
    (take (Z.to_nat cx) line ++ rev text ++ drop (Z.to_nat cx) line).
  split; [|proj; repeat split; try done; lia].
  unfold TextArea.insert_text_at_cursor, TextArea.cursor_offset,
    TextArea.compute_cursor_offset. proj. rewrite Hrun, bind_Ok.
  unfold TextArea.set_buffer. proj.
  rewrite (update_lines_returns p Segment render_lines _ m') by done.
  rewrite bind_Ok. proj.
  rewrite (set_cursor_x_on_row Segment _ _
             (take (Z.to_nat cx) line ++ rev text ++ drop (Z.to_nat cx) line)) by done.
  proj.
  do 2 f_equal. lia.
Qed.

(** X24. With the cursor at a position in range, [insert_text_at_cursor]
    of a text other than the separator returns; the cursor's row has the
    text's characters, last to first, between the characters before the
    cursor and those from the cursor on, every other row is as it was,
    and the cursor is [len(text)] columns further on the same row, still
    within the line. *)
Theorem insert_text_at_cursor_advances self (line : list ascii) (text : str) :
  row (TextArea._buffer Segment self) (TextArea.cursor_y Segment self) = Some line ->
  0 <= TextArea.cursor_x Segment self <= py.len line ->
  text <> os.linesep p ->
  exists self' line',
    TextArea.insert_text_at_cursor p Segment render_lines self text = Ok self'
    /\ line' = take (Z.to_nat (TextArea.cursor_x Segment self)) line ++ rev text
               ++ drop (Z.to_nat (TextArea.cursor_x Segment self)) line
    /\ row (TextArea._buffer Segment self') (TextArea.cursor_y Segment self) = Some line'
    /\ (forall y', y' <> TextArea.cursor_y Segment self ->
        row (TextArea._buffer Segment self') y' = row (TextArea._buffer Segment self) y')
    /\ TextArea.cursor_y Segment self' = TextArea.cursor_y Segment self
    /\ TextArea.cursor_x Segment self' = TextArea.cursor_x Segment self + py.len text
    /\ TextArea.cursor_x Segment self' <= py.len line'.
Proof.
  intros Hrow Hx Hsep.
  destruct (insert_text_at_cursor_in_range self line text Hrow Hx Hsep)
    as (self' & line' & Hrun & Hline & Hrest).
  exists self', line'. split; [exact Hrun|]. split; [exact Hline|exact Hrest].
Qed.

(** X25. With the cursor at a position in range, [insert_text_at_cursor]
    of the separator returns; the cursor's row is split at the cursor
    into two rows, and the cursor is where it was, now at the end of the
    first of the two. *)
Theorem insert_separator_at_cursor self (line : list ascii) :
  row (TextArea._buffer Segment self) (TextArea.cursor_y Segment self) = Some line ->
  0 <= TextArea.cursor_x Segment self <= py.len line ->
  exists self',
    TextArea.insert_text_at_cursor p Segment render_lines self (os.linesep p) = Ok self'
    /\ row (TextArea._buffer Segment self') (TextArea.cursor_y Segment self)
       = Some (take (Z.to_nat (TextArea.cursor_x Segment self)) line)
    /\ row (TextArea._buffer Segment self') (TextArea.cursor_y Segment self + 1)
       = Some (drop (Z.to_nat (TextArea.cursor_x Segment self)) line)
    /\ Buffer.max_y (TextArea._buffer Segment self')
       = Buffer.max_y (TextArea._buffer Segment self) + 1
    /\ TextArea.cursor_offset Segment self'
       = (TextArea.cursor_x Segment self, TextArea.cursor_y Segment self).
Proof.
  destruct self as [b ls cy cx vs]. proj. intros Hrow Hx.
  pose proof (insert_linebreak_in_range b cx cy line Hrow Hx) as Hbrk.
  pose proof Hrow as [Hy _]%row_Some.
  destruct (rows_after_linebreak (Buffer._lines b) cy (take (Z.to_nat cx) line)
              (drop (Z.to_nat cx) line) Hy) as [Hrow0 Hrow1].
  set (b' := Buffer.mk _) in *.
  assert (Hrun : Buffer.insert_text p b (cx, cy) (os.linesep p) = Ok b')
    by (by rewrite insert_text_of_separator).
  pose proof (insert_linebreak_max_y _ _ _ Hbrk) as Hcount.
  pose proof (len_nonneg (Buffer._lines b)) as Hnn. unfold Buffer.max_y in Hcount.
  destruct (max_x_returns b') as (m' & Hm' & _); [unfold Buffer.max_y; lia|].
  exists (TextArea.mk Segment b'
            (render_lines (Buffer.write p b') m' (Buffer.max_y b')) cy cx
            (m', Buffer.max_y b')).
  split; [|by proj].
  unfold TextArea.insert_text_at_cursor, TextArea.cursor_offset,
    TextArea.compute_cursor_offset. proj. rewrite Hrun, bind_Ok.
  unfold TextArea.set_buffer. proj.
  rewrite (update_lines_returns p Segment render_lines _ m') by done.
  rewrite bind_Ok. proj.
  rewrite (set_cursor_x_on_row Segment _ _ (take (Z.to_nat cx) line)) by done.
  proj.
  do 2 f_equal.
  assert (py.len (take (Z.to_nat cx) line) = cx)
    by (unfold py.len in *; rewrite length_take; lia).
  assert (1 <= py.len (os.linesep p)) by (destruct p; unfold py.len; simpl; lia).
  lia.
Qed.

Lemma type_text_in_order text : forall self line,
  row (TextArea._buffer Segment self) (TextArea.cursor_y Segment self) = Some line ->
  0 <= TextArea.cursor_x Segment self <= py.len line ->
  Forall (fun c => [c] <> os.linesep p) text ->
  exists self',
    type_text p Segment render_lines self text = Ok self'
    /\ row (TextArea._buffer Segment self') (TextArea.cursor_y Segment self)
       = Some (take (Z.to_nat (TextArea.cursor_x Segment self)) line ++ text
               ++ drop (Z.to_nat (TextArea.cursor_x Segment self)) line)
    /\ (forall y', y' <> TextArea.cursor_y Segment self ->
        row (TextArea._buffer Segment self') y' = row (TextArea._buffer Segment self) y')
    /\ TextArea.cursor_y Segment self' = TextArea.cursor_y Segment self
    /\ TextArea.cursor_x Segment self' = TextArea.cursor_x Segment self + py.len text.
Proof.
  induction text as [|c rest IH]; intros self line Hrow Hx Hfree.
  - exists self. cbn [type_text app]. rewrite take_drop.
    split; [done|]. split; [done|]. split; [done|]. split; [done|].
    unfold py.len. simpl. lia.
  - apply Forall_cons in Hfree as [Hc Hrest].
    destruct (insert_text_at_cursor_in_range self line [c] Hrow Hx Hc)
      as (self1 & line1 & Hrun & -> & Hrow1 & Hother1 & Hy1 & Hx1 & Hin1).
    cbn [type_text]. rewrite Hrun, bind_Ok.
    rewrite <- Hy1 in Hrow1.
    destruct (IH self1 _ Hrow1) as (self' & Hrun' & Hrow' & Hother' & Hy' & Hx');
      [|done|].
    { split; [|exact Hin1]. rewrite Hx1. pose proof (len_nonneg [c]). lia. }
    exists self'. split; [done|]. rewrite Hy1 in *.
    assert (Hk : length (take (Z.to_nat (TextArea.cursor_x Segment self)) line)
                 = Z.to_nat (TextArea.cursor_x Segment self))
      by (rewrite length_take; unfold py.len in Hx; lia).
    split; [|split; [|split]].
    + rewrite Hrow', Hx1. f_equal.
      replace (Z.to_nat (TextArea.cursor_x Segment self + py.len [c]))
        with (Z.to_nat (TextArea.cursor_x Segment self) + 1)%nat
        by (unfold py.len; simpl; lia).
      cbn [rev app].
      rewrite take_app_add', drop_app_add' by done.
      cbn [take drop]. rewrite take_0, drop_0. by rewrite <- app_assoc.
    + intros y' Hne. rewrite Hother' by done. by apply Hother1.
    + done.
    + rewrite Hx', Hx1. unfold py.len. simpl length. lia.
Qed.

(** X26. With the cursor at a position in range, the characters of a
    text given to [insert_text_at_cursor] one at a time, as [_on_key]
    gives them, none of them the separator, land in the cursor's row in
    the order of the text, between the characters before the cursor and
    those from the cursor on; every other row is as it was, and the
    cursor ends behind the last of them. *)
Theorem typing_lands_in_order self (line : list ascii) (text : str) :
  row (TextArea._buffer Segment self) (TextArea.cursor_y Segment self) = Some line ->
  0 <= TextArea.cursor_x Segment self <= py.len line ->
  Forall (fun c => [c] <> os.linesep p) text ->
  exists self',
    type_text p Segment render_lines self text = Ok self'
    /\ row (TextArea._buffer Segment self') (TextArea.cursor_y Segment self)
       = Some (take (Z.to_nat (TextArea.cursor_x Segment self)) line ++ text
               ++ drop (Z.to_nat (TextArea.cursor_x Segment self)) line)
    /\ (forall y', y' <> TextArea.cursor_y Segment self ->
        row (TextArea._buffer Segment self') y' = row (TextArea._buffer Segment self) y')
    /\ TextArea.cursor_offset Segment self'
       = (TextArea.cursor_x Segment self + py.len text, TextArea.cursor_y Segment self).
Proof.
  intros Hrow Hx Hfree.
  destruct (type_text_in_order text self line Hrow Hx Hfree)
    as (self' & Hrun & Hrow' & Hother & Hy & Hcx).
  exists self'. split; [done|]. split; [done|]. split; [done|].
  unfold TextArea.cursor_offset, TextArea.compute_cursor_offset. by rewrite Hy, Hcx.
Qed.

End Typing.

Lemma insert_text_at_cursor_advances_witness :
  exists self',
    TextArea.insert_text_at_cursor os.posix unit (fun _ _ _ => [])
      (TextArea.mk unit (Buffer.mk [lit "ab"; lit "cd"]) [] 1 1 (2, 2)) (lit "XY")
    = Ok self'
    /\ row (TextArea._buffer unit self') 1 = Some (lit "cYXd")
    /\ TextArea.cursor_x unit self' = 3.
Proof.
  destruct (insert_text_at_cursor_advances os.posix unit (fun _ _ _ => [])
              (TextArea.mk unit (Buffer.mk [lit "ab"; lit "cd"]) [] 1 1 (2, 2))
              (lit "cd") (lit "XY") eq_refl)
    as (self' & line' & Hrun & -> & Hrow & _ & _ & Hx & _).
  - unfold py.len. simpl. lia.
  - discriminate.
  - exists self'. split; [exact Hrun|]. split; [exact Hrow|exact Hx].
Defined.

Lemma insert_separator_at_cursor_witness :
  exists self',
    TextArea.insert_text_at_cursor os.nt unit (fun _ _ _ => [])
      (TextArea.mk unit (Buffer.mk [lit "abcd"]) [] 0 1 (4, 1)) [os.CR; os.LF]
    = Ok self'
    /\ row (TextArea._buffer unit self') 0 = Some (lit "a")
    /\ row (TextArea._buffer unit self') 1 = Some (lit "bcd")
    /\ TextArea.cursor_offset unit self' = (1, 0).
Proof.
  destruct (insert_separator_at_cursor os.nt unit (fun _ _ _ => [])
              (TextArea.mk unit (Buffer.mk [lit "abcd"]) [] 0 1 (4, 1))
              (lit "abcd") eq_refl)
    as (self' & Hrun & Hrow0 & Hrow1 & _ & Hcur).
  - unfold py.len. simpl. lia.
  - exists self'. split; [exact Hrun|]. split; [exact Hrow0|]. split; [exact Hrow1|].
    exact Hcur.
Defined.

Lemma typing_lands_in_order_witness :
  exists self',
    type_text os.posix unit (fun _ _ _ => [])
      (TextArea.mk unit (Buffer.mk [lit "ab"; lit "cd"]) [] 1 1 (2, 2)) (lit "XYZ")
    = Ok self'
    /\ row (TextArea._buffer unit self') 1 = Some (lit "cXYZd")
    /\ TextArea.cursor_offset unit self' = (4, 1).
Proof.
  destruct (typing_lands_in_order os.posix unit (fun _ _ _ => [])
              (TextArea.mk unit (Buffer.mk [lit "ab"; lit "cd"]) [] 1 1 (2, 2))
              (lit "cd") (lit "XYZ") eq_refl)
    as (self' & Hrun & Hrow & _ & Hcur).
  - unfold py.len. simpl. lia.
  - repeat constructor; discriminate.
  - exists self'. split; [exact Hrun|]. split; [exact Hrow|exact Hcur].
Defined.

(** * Rendering a row *)

Section RenderingFacts.
Variable Segment : Type.
Variable Style : Type.
Variable cell_length : Segment -> Z.
Variable text : Segment -> str.
Variable Segment_ : str -> Style -> Segment.
Variable get_line_length : list Segment -> Z.
Variable divide : list Segment -> list Z -> result (list (list Segment)).
Variable adjust_line_length : list Segment -> Z -> list Segment.
Variable Strip : Type.
Variable Strip_blank : Z -> option Style -> Strip.
Variable Strip_ : list Segment -> Strip.
Variable crop : Strip -> Z -> Z -> Strip.
Variable scroll_x scroll_y : Z.
Variable width_of_size : Z.
Variable cursor_style : Style.

Local Abbreviation render :=
  (render_line Segment Style cell_length text Segment_ get_line_length divide
     adjust_line_length Strip Strip_blank Strip_ crop (scroll_x, scroll_y)
     width_of_size cursor_style).

Local Abbreviation set_cursor :=
  (_set_cursor Segment Style cell_length text Segment_ get_line_length divide
     adjust_line_length).

Lemma getitem_raises_IndexError {A : Type} (l : list A) (i : Z) (e : exn) :
  py.getitem l i = Raise e -> e = IndexError.
Proof.
  unfold py.getitem. destruct (py.norm_index _ _) as [k|];
    [destruct (_ !! k)|]; congruence.
Qed.

Lemma render_row (self : TextArea.t Segment) (y : Z) (segments : list Segment) :
  py.getitem (TextArea.lines Segment self) (y + scroll_y) = Ok segments ->
  render self y
  = (if y + scroll_y =? TextArea.cursor_y Segment self
     then segments' ← set_cursor (TextArea.cursor_x Segment self) segments cursor_style;
          Ok (crop (Strip_ segments') scroll_x (scroll_x + width_of_size))
     else Ok (crop (Strip_ segments) scroll_x (scroll_x + width_of_size))).
Proof.
  intros Hget. unfold render_line. rewrite Hget.
  unfold TextArea.cursor_offset, TextArea.compute_cursor_offset.
  by destruct (_ =? _).
Qed.

(** X27. What [render_line] does with a row. A row that [lines] does
    not have gives a blank strip, one cell wide in the cursor's style when
    the row is 0 and of no width otherwise; a row of [lines] other than
    the cursor's gives its runs, unchanged, cropped to the window from
    [scroll_x] on; the cursor's row gives what [_set_cursor] makes of its
    runs, cropped to the same window, or raises what [_set_cursor]
    raises. It raises on no row but the cursor's, and there only what
    [Segment.divide] raises. *)
Theorem render_line_raises_only_from_divide (self : TextArea.t Segment) (y : Z) :
  (py.len (TextArea.lines Segment self) <= y + scroll_y
   \/ y + scroll_y < - py.len (TextArea.lines Segment self) ->
   render self y
   = Ok (if y + scroll_y =? 0 then Strip_blank 1 (Some cursor_style)
         else Strip_blank 0 None))
  /\ (forall segments,
      0 <= y + scroll_y ->
      TextArea.lines Segment self !! Z.to_nat (y + scroll_y) = Some segments ->
      (y + scroll_y <> TextArea.cursor_y Segment self ->
       render self y
       = Ok (crop (Strip_ segments) scroll_x (scroll_x + width_of_size)))
      /\ (y + scroll_y = TextArea.cursor_y Segment self ->
          render self y
          = (segments' ← set_cursor (TextArea.cursor_x Segment self) segments
                          cursor_style;
             Ok (crop (Strip_ segments') scroll_x (scroll_x + width_of_size)))))
  /\ (forall e,
      render self y = Raise e ->
      y + scroll_y = TextArea.cursor_y Segment self
      /\ exists segments,
          py.getitem (TextArea.lines Segment self) (y + scroll_y) = Ok segments
          /\ divide segments
               (cursor_cuts Segment get_line_length (TextArea.cursor_x Segment self)
                  segments)
             = Raise e).
Proof.
  split; [|split].
  - intros Hout. unfold render_line. rewrite getitem_beyond by done.
    by destruct (_ =? 0).
  - intros segments Hy Hl.
    rewrite (render_row self y segments) by (by apply getitem_in_range).
    split.
    + intros Hne. by destruct (Z.eqb_spec (y + scroll_y) (TextArea.cursor_y Segment self)).
    + intros ->. by rewrite Z.eqb_refl.
  - intros e.
    destruct (py.getitem (TextArea.lines Segment self) (y + scroll_y))
      as [segments|e'] eqn:Hget.
    + rewrite (render_row self y segments Hget).
      destruct (Z.eqb_spec (y + scroll_y) (TextArea.cursor_y Segment self)) as [Heq|Hne];
        [|discriminate].
      intros Hraise. split; [done|]. exists segments. split; [done|].
      apply (proj1 (set_cursor_raises Segment Style cell_length text Segment_
                      get_line_length divide adjust_line_length
                      (TextArea.cursor_x Segment self) segments cursor_style e)).
      destruct (set_cursor _ _ _) as [segments'|e'']; [discriminate|].
      by inversion Hraise.
    + unfold render_line. rewrite Hget.
      apply getitem_raises_IndexError in Hget as ->.
      by destruct (_ =? 0).
Qed.

End RenderingFacts.

Lemma render_line_raises_only_from_divide_witness :
  render_line Z unit id (fun _ => []) (fun _ _ => 0) (fun _ => 0)
    (fun line _ => Ok [line])
    (fun line _ => line) (list Z) (fun n _ => [n]) id (fun strip _ _ => strip)
    (0, 1) 80 tt
    (TextArea.mk Z Buffer.__init__ [] 0 0 (0, 0)) 0
  = Ok [0]
  /\ render_line Z unit id (fun _ => []) (fun _ _ => 0) (fun _ => 0)
    (fun line _ => Ok [line])
    (fun line _ => line) (list Z) (fun n _ => [n]) id (fun strip _ _ => strip)
    (0, 0) 80 tt
    (TextArea.mk Z (Buffer.mk [lit "ab"; lit "c"]) [[2]; [1]] 1 0 (2, 2)) 0
  = Ok [2].
Proof.
  split.
  - apply (proj1 (render_line_raises_only_from_divide Z unit id (fun _ => [])
                    (fun _ _ => 0) (fun _ => 0) (fun line _ => Ok [line])
                    (fun line _ => line) (list Z) (fun n _ => [n]) id
                    (fun strip _ _ => strip) 0 1 80 tt
                    (TextArea.mk Z Buffer.__init__ [] 0 0 (0, 0)) 0)).
    left. unfold py.len. simpl. lia.
  - destruct (proj1 (proj2 (render_line_raises_only_from_divide Z unit id (fun _ => [])
                    (fun _ _ => 0) (fun _ => 0) (fun line _ => Ok [line])
                    (fun line _ => line) (list Z) (fun n _ => [n]) id
                    (fun strip _ _ => strip) 0 0 80 tt
                    (TextArea.mk Z (Buffer.mk [lit "ab"; lit "c"]) [[2]; [1]]
                       1 0 (2, 2)) 0))
                [2]) as [Hother _]; [lia|reflexivity|].
    apply Hother. simpl. lia.
Defined.
